(** * Block type registration: [packages/blocks/src/store/actions.js]

    A shallow embedding of [processBlockType], [addBlockTypes],
    [__experimentalRegisterBlockType] and
    [__experimentalReapplyBlockTypeFilters], with the part of JavaScript
    they rely on: dynamically typed values, property reads that throw on
    [null] and [undefined], console diagnostics, the filter hook and the
    store's [dispatch]. *)

From stdpp Require Import base strings gmap list pretty.

Set Warnings "-register-all".

(** ** JavaScript values *)

(** What [isPlainObject] tells apart: an object made by a literal, a spread
    or [Object.fromEntries], and an object with another prototype (a class
    instance). *)
Inductive oclass := Plain | Instance.

(** Numbers are the integers below 10^21 in magnitude, which [toString]
    prints in decimal; [processBlockType] only tests numbers for truthiness
    and prints them.  A function is an opaque handle: the module asks
    whether a value is callable and never calls one.  An object is its
    class and its own enumerable string-keyed properties; the order of
    the keys is not kept. *)
Inductive value :=
| VUndefined
| VNull
| VBool (b : bool)
| VNumber (n : Z)
| VString (s : string)
| VFunction (f : nat)
| VArray (items : list value)
| VObject (c : oclass) (props : gmap string value).

(** The character [U+0022], for the messages that quote a name. *)
Definition dq : string := String (Ascii.ascii_of_nat 34) EmptyString.

Definition typeof (v : value) : string :=
  match v with
  | VUndefined => "undefined"
  | VNull => "object"
  | VBool _ => "boolean"
  | VNumber _ => "number"
  | VString _ => "string"
  | VFunction _ => "function"
  | VArray _ => "object"
  | VObject _ _ => "object"
  end.

(** [ToBoolean]: the test of [if ( v )], [!v] and [a && b]. *)
Definition toBoolean (v : value) : bool :=
  match v with
  | VUndefined | VNull => false
  | VBool b => b
  | VNumber n => negb (bool_decide (n = 0%Z))
  | VString s => negb (bool_decide (s = ""))
  | VFunction _ | VArray _ | VObject _ _ => true
  end.

Definition isNullish (v : value) : bool :=
  match v with
  | VUndefined | VNull => true
  | _ => false
  end.

(** [ToString], as used by string concatenation and by [ToPropertyKey].
    An array prints its items joined by commas, [null] and [undefined]
    items as the empty string.  Objects print through
    [Object.prototype.toString] (an own [toString] or [valueOf] method
    would have to be called and is outside the embedding); the source text
    of a function is not kept and is printed as that of a built-in. *)
Fixpoint toString (v : value) : string :=
  match v with
  | VUndefined => "undefined"
  | VNull => "null"
  | VBool true => "true"
  | VBool false => "false"
  | VNumber n => pretty n
  | VString s => s
  | VFunction _ => "function () { [native code] }"
  | VArray items =>
      String.concat ","
        ((λ item, if isNullish item then "" else toString item) <$> items)
  | VObject _ _ => "[object Object]"
  end.

Definition toPropertyKey (v : value) : string := toString v.

(** [v === s] for a string primitive [s]. *)
Definition strictEqualsString (v : value) (s : string) : bool :=
  match v with
  | VString s' => bool_decide (s' = s)
  | _ => false
  end.

(** The own enumerable string-keyed properties of a value: what a spread
    [{ ...v }] copies and what [Object.entries( v )] lists.  An array
    contributes its indices and a string its characters. *)
Definition ownProperties (v : value) : gmap string value :=
  match v with
  | VObject _ props => props
  | VArray items => list_to_map (imap (λ i item, (pretty i, item)) items)
  | VString s =>
      list_to_map
        (imap (λ i ch, (pretty i, VString (String ch EmptyString)))
           (String.list_ascii_of_string s))
  | _ => ∅
  end.

(** [v.k] on a value that is neither [null] nor [undefined], for the named
    keys this module reads ([name], [description], [deprecated], [save],
    [edit], [category], [title], [icon], [src]): an object answers with its
    property, and the prototypes of the built-in kinds define none of
    these names. *)
Definition prop (v : value) (k : string) : value :=
  match v with
  | VObject _ props => default VUndefined (props !! k)
  | _ => VUndefined
  end.

(** [k in v] on an object, for the same keys. *)
Definition hasProp (v : value) (k : string) : bool :=
  match v with
  | VObject _ props => bool_decide (is_Some (props !! k))
  | _ => false
  end.

Definition isObjectType (v : value) : bool :=
  match v with
  | VFunction _ | VArray _ | VObject _ _ => true
  | _ => false
  end.

(** ** Types of the block registry *)

(** [BlockCategory]: the join key [slug] and a [title]. *)
Record BlockCategory := { slug : string; title : string }.

(** [BlockIconNormalized] of [types/block-icon.ts]. *)
Record BlockIconNormalized := {
  src : value;
  background : option string;
  foreground : option string;
  shadowColor : option string;
}.

(** The normalized icon as the object stored in [settings.icon]. *)
Definition iconObject (icon : BlockIconNormalized) : value :=
  let optional k o m :=
    match o with Some s => <[k := VString s]> m | None => m end in
  VObject Plain
    (optional "shadowColor" (shadowColor icon)
       (optional "foreground" (foreground icon)
          (optional "background" (background icon)
             {[ "src" := src icon ]}))).

(** The selectors of the store this module calls.  The unprocessed block
    types are kept as the entries of the state object in its iteration
    order, each name once. *)
Record Select := {
  getCategories : list BlockCategory;
  __experimentalGetUnprocessedBlockTypes : list (string * value);
}.

Inductive action :=
| ADD_UNPROCESSED_BLOCK_TYPE (blockType : value)
| ADD_BLOCK_TYPES (blockTypes : list value)
| REMOVE_BLOCK_TYPES (names : list value).

(** ** Effects *)

(** What a run leaves behind, in order: the console diagnostics, the
    notices of [@wordpress/deprecated], the calls made to the filter hook
    and the actions handed to [dispatch]. *)
Inductive event :=
| ConsoleError (msg : string)
| ConsoleWarn (msg : string)
| DeprecatedNotice (feature since : string)
| FilterCall (hookName : string) (v name context : value)
| Dispatched (a : action).

Inductive exn := TypeError (msg : string).

Inductive completion (A : Type) :=
| Normal (a : A)
| Throw (e : exn).
Arguments Normal {A} a.
Arguments Throw {A} e.

(** A computation is the trace it emits and how it completes. *)
Record M (A : Type) := Run { trace : list event; outcome : completion A }.
Arguments Run {A} trace outcome.
Arguments trace {A} m.
Arguments outcome {A} m.

Definition M_ret {A} (a : A) : M A := Run [] (Normal a).

Definition M_bind {A B} (f : A → M B) (m : M A) : M B :=
  match outcome m with
  | Normal a => Run (trace m ++ trace (f a)) (outcome (f a))
  | Throw e => Run (trace m) (Throw e)
  end.

#[export] Instance M_mret : MRet M := @M_ret.
#[export] Instance M_mbind : MBind M := @M_bind.

Definition emit (e : event) : M unit := Run [e] (Normal ()).
Definition throw {A} (e : exn) : M A := Run [] (Throw e).

Fixpoint mapM {A B} (f : A → M B) (l : list A) : M (list B) :=
  match l with
  | [] => mret []
  | x :: l' => y ← f x; ys ← mapM f l'; mret (y :: ys)
  end.

Fixpoint reduceM {A B} (f : B → A → M B) (l : list A) (acc : B) : M B :=
  match l with
  | [] => mret acc
  | x :: l' => acc' ← f acc x; reduceM f l' acc'
  end.

(** Projections of a trace. *)
Definition errors (l : list event) : list string :=
  omap (λ e, match e with ConsoleError m => Some m | _ => None end) l.
Definition warnings (l : list event) : list string :=
  omap (λ e, match e with ConsoleWarn m => Some m | _ => None end) l.
Definition dispatched (l : list event) : list action :=
  omap (λ e, match e with Dispatched a => Some a | _ => None end) l.
Definition filterCalls (l : list event)
  : list (string * value * value * value) :=
  omap (λ e, match e with
             | FilterCall h v n c => Some (h, v, n, c)
             | _ => None
             end) l.

(** ** Property access *)

(** [v.k]: a [TypeError] on [null] and [undefined]. *)
Definition get (v : value) (k : string) : M value :=
  if isNullish v
  then throw (TypeError ("Cannot read properties of " +:+ toString v))
  else mret (prop v k).

(** [k in v]: a [TypeError] on a primitive. *)
Definition has (k : string) (v : value) : M bool :=
  if isObjectType v
  then mret (hasProp v k)
  else throw (TypeError ("Cannot use 'in' operator to search for '" +:+ k
                          +:+ "' in " +:+ toString v)).

(** The object [v] after [v.k = x] and after [delete v.k]. *)
Definition assign (v : value) (k : string) (x : value) : value :=
  match v with
  | VObject c props => VObject c (<[k := x]> props)
  | _ => v
  end.

Definition remove (v : value) (k : string) : value :=
  match v with
  | VObject c props => VObject c (delete k props)
  | _ => v
  end.

(** [v.k = x] in strict mode: a [TypeError] on a primitive.  Arrays and
    functions keep no named properties in this embedding (see [prop]), so
    the assignment leaves them as they are. *)
Definition set (v : value) (k : string) (x : value) : M value :=
  if isObjectType v
  then mret (assign v k x)
  else throw (TypeError ("Cannot set properties of " +:+ toString v)).

(** [delete v.k]. *)
Definition deleteProp (v : value) (k : string) : M value :=
  if isNullish v
  then throw (TypeError "Cannot convert undefined or null to object")
  else mret (remove v k).

(** [Object.entries( v )]. *)
Definition Object_entries (v : value) : M (list (string * value)) :=
  if isNullish v
  then throw (TypeError "Cannot convert undefined or null to object")
  else mret (map_to_list (ownProperties v)).

(** [Object.fromEntries( entries )]: a later entry overwrites an earlier
    one with the same key. *)
Definition Object_fromEntries (entries : list (string * value)) : value :=
  VObject Plain (foldl (λ m kv, <[kv.1 := kv.2]> m) ∅ entries).

(** [v.map( f )]: [Array.prototype.map] on an array; on any other value
    that is not [null] or [undefined] the method is missing and the call
    is a [TypeError] (an object bringing its own [map] is outside the
    embedding). *)
Definition callMap (v : value) (f : value → M value) : M value :=
  match v with
  | VArray items => items' ← mapM f items; mret (VArray items')
  | _ => throw (TypeError (toString v +:+ ".map is not a function"))
  end.

(** [isPlainObject] of the package [is-plain-object]: the class of an
    object says whether it is an object literal or an instance.  The
    package also looks at the [constructor] an object answers with, so a
    literal with an own property named [constructor] is outside the
    embedding. *)
Definition isPlainObject (v : value) : bool :=
  match v with
  | VObject Plain _ => true
  | _ => false
  end.

(** ** [store/actions.js] *)

Definition LEGACY_CATEGORY_MAPPING : gmap string value :=
  {[ "common" := VString "text";
     "formatting" := VString "text";
     "layout" := VString "design" ]}.

Definition isFunction (maybeFunc : value) : bool :=
  bool_decide (typeof maybeFunc = "function").

Definition error (msg : string) : M unit := emit (ConsoleError msg).
Definition warn (msg : string) : M unit := emit (ConsoleWarn msg).
Definition deprecated (feature since : string) : M unit :=
  emit (DeprecatedNotice feature since).
Definition dispatch (a : action) : M unit := emit (Dispatched a).

(** Modelled from the spec: [omit] of [api/utils], which is not among the
    sources; the object with the given key set excluded. *)
Definition omit (object : value) (keys : list string) : value :=
  VObject Plain (filter (λ kv, kv.1 ∉ keys) (ownProperties object)).

(** The object literal [{ ...a, ...b }]. *)
Definition spread2 (a b : value) : value :=
  VObject Plain (ownProperties b ∪ ownProperties a).

Definition addBlockTypes (blockTypes : value) : action :=
  ADD_BLOCK_TYPES
    match blockTypes with
    | VArray items => items
    | _ => [blockTypes]
    end.

Definition removeBlockTypes (names : value) : action :=
  REMOVE_BLOCK_TYPES
    match names with
    | VArray items => items
    | _ => [names]
    end.

(** [a && b] and [a || b] on tests that read properties: the right operand
    is evaluated only when the left one does not decide. *)
Definition andM (a b : M bool) : M bool :=
  x ← a; if (x : bool) then b else mret false.
Definition orM (a b : M bool) : M bool :=
  x ← a; if (x : bool) then mret true else b.

(** [entries[ k ]] on the entries of an object. *)
Definition member (entries : list (string * value)) (k : string) : value :=
  default VUndefined ((list_to_map entries : gmap string value) !! k).

(** [getCategories().some( ( { slug } ) => slug === category )]. *)
Definition knownCategory (select : Select) (category : value) : bool :=
  existsb (λ c, strictEqualsString category (slug c)) (getCategories select).

Definition HOOK : string := "blocks.registerBlockType".

Definition MSG_SETTINGS : string := "Block settings must be a valid object.".
Definition MSG_SAVE : string :=
  "The " +:+ dq +:+ "save" +:+ dq +:+ " property must be a valid function.".
Definition MSG_EDIT : string :=
  "The " +:+ dq +:+ "edit" +:+ dq +:+ " property must be a valid function.".
Definition MSG_CATEGORY (name category : value) : string :=
  "The block " +:+ dq +:+ toString name +:+ dq
  +:+ " is registered with an invalid category "
  +:+ dq +:+ toString category +:+ dq +:+ ".".
Definition MSG_TITLE (name : value) : string :=
  "The block " +:+ dq +:+ toString name +:+ dq +:+ " must have a title.".
Definition MSG_TITLE_TYPE : string := "Block titles must be strings.".
Definition MSG_ICON : string :=
  "The icon passed is invalid. "
  +:+ "The icon should be a string, an element, a function, or an object following the specifications documented in https://developer.wordpress.org/block-editor/developers/block-api/block-registration/#icon-optional".

(** ** The validator as the specification words it

    Section 4.1: the five checks in order, the first failure deciding, with
    the error kinds of section 7. *)
Module Spec.

Inductive rejection :=
| MalformedDefinition
| MissingRequiredCallable
| InvalidOptionalCallable
| MissingTitle
| InvalidTitleType
| InvalidIcon.

Definition validate (isValidIcon : value → bool)
    (normalizeIconObject : value → BlockIconNormalized)
    (candidate : value) : option rejection :=
  if negb (isPlainObject candidate)
  then Some MalformedDefinition
  else if negb (isFunction (prop candidate "save"))
  then Some MissingRequiredCallable
  else if hasProp candidate "edit"
          && negb (isFunction (prop candidate "edit"))
  then Some InvalidOptionalCallable
  else if negb (hasProp candidate "title")
          || strictEqualsString (prop candidate "title") ""
  then Some MissingTitle
  else if negb (bool_decide (typeof (prop candidate "title") = "string"))
  then Some InvalidTitleType
  else if negb (isValidIcon
                  (src (normalizeIconObject (prop candidate "icon"))))
  then Some InvalidIcon
  else None.

End Spec.

(** The console message [processBlockType] gives for each kind. *)
Definition diagnostic (name : value) (r : Spec.rejection) : string :=
  match r with
  | Spec.MalformedDefinition => MSG_SETTINGS
  | Spec.MissingRequiredCallable => MSG_SAVE
  | Spec.InvalidOptionalCallable => MSG_EDIT
  | Spec.MissingTitle => MSG_TITLE name
  | Spec.InvalidTitleType => MSG_TITLE_TYPE
  | Spec.InvalidIcon => MSG_ICON
  end.

(** The kinds decided by lines 106-118, above the category step. *)
Definition beforeCategory (r : Spec.rejection) : bool :=
  match r with
  | Spec.MalformedDefinition
  | Spec.MissingRequiredCallable
  | Spec.InvalidOptionalCallable => true
  | _ => false
  end.

Section Registration.

(** The collaborators [actions.js] imports: the filter chain of
    [@wordpress/hooks], the icon helpers of [api/utils] and the
    allowlist of [api/constants].  The filter chain is a function of its
    arguments that returns a value: a filter that throws, or that changes
    in place an object nested in its argument, is outside the embedding.
    [normalizeIconObject] has the return type [types/block-icon.ts]
    declares for it, and is taken to return: the helper tests
    ['background' in icon], which is a [TypeError] on a truthy icon that
    is neither a string, a function nor an object; such an icon, which
    the type [BlockIcon] excludes, is outside the embedding, and so is
    the throw of line 150 it causes. *)
Variable applyFilters : string → value → value → value → value.
Variable isValidIcon : value → bool.
Variable normalizeIconObject : value → BlockIconNormalized.
Variable DEPRECATED_ENTRY_KEYS : list string.

(** A call to the filter chain, recorded in the trace. *)
Definition callFilters (hookName : string) (v name context : value)
  : M value :=
  emit (FilterCall hookName v name context);;
  mret (applyFilters hookName v name context).

(** Lines 76-80: the notice for a description that is not a string. *)
Definition checkDescription (settings : value) : M unit :=
  nonString ← andM (description ← get settings "description";
                    mret (toBoolean description))
                   (description ← get settings "description";
                    mret (negb (bool_decide (typeof description = "string"))));
  if (nonString : bool)
  then deprecated "Declaring non-string block descriptions" "6.2"
  else mret ().

(** Lines 92-97: the deprecation merged over the unfiltered block type
    without the deprecation keys. *)
Definition mergeDeprecation (blockType deprecation : value) : value :=
  spread2 (omit blockType DEPRECATED_ENTRY_KEYS) deprecation.

(** Lines 83-102: the callback of [settings.deprecated.map]. *)
Definition filterDeprecation (blockType name deprecation : value)
  : M value :=
  filtered ← callFilters HOOK (mergeDeprecation blockType deprecation)
               name deprecation;
  entries ← Object_entries filtered;
  mret (Object_fromEntries
          (filter (λ kv, kv.1 ∈ DEPRECATED_ENTRY_KEYS) entries)).

(** Lines 82-104. *)
Definition filterDeprecated (blockType name settings : value) : M value :=
  deprecations ← get settings "deprecated";
  if toBoolean deprecations
  then
    deprecations ← get settings "deprecated";
    filtered ← callMap deprecations (filterDeprecation blockType name);
    set settings "deprecated" filtered
  else mret settings.

(** Lines 120-139: legacy categories are canonicalized, then a
    category that is not registered is dropped with a warning. *)
Definition normalizeCategory (name settings : value) (select : Select)
  : M value :=
  category ← get settings "category";
  settings ←
    match LEGACY_CATEGORY_MAPPING !! toPropertyKey category with
    | Some latest => set settings "category" latest
    | None => mret settings
    end;
  invalid ← andM (has "category" settings)
                 (category ← get settings "category";
                  mret (negb (knownCategory select category)));
  if (invalid : bool)
  then
    category ← get settings "category";
    warn (MSG_CATEGORY name category);;
    deleteProp settings "category"
  else mret settings.

(** Lines 106-159: the checks, with the category step between the
    [edit] and the [title] check, and the icon. *)
Definition validateSettings (name settings : value) (select : Select)
  : M value :=
  if negb (isPlainObject settings)
  then error MSG_SETTINGS;; mret VUndefined
  else
    save ← get settings "save";
    if negb (isFunction save)
    then error MSG_SAVE;; mret VUndefined
    else
      badEdit ← andM (has "edit" settings)
                     (edit ← get settings "edit";
                      mret (negb (isFunction edit)));
      if (badEdit : bool)
      then error MSG_EDIT;; mret VUndefined
      else
        settings ← normalizeCategory name settings select;
        noTitle ← orM (present ← has "title" settings;
                       mret (negb present))
                      (title ← get settings "title";
                       mret (strictEqualsString title ""));
        if (noTitle : bool)
        then error (MSG_TITLE name);; mret VUndefined
        else
          title ← get settings "title";
          if negb (bool_decide (typeof title = "string"))
          then error MSG_TITLE_TYPE;; mret VUndefined
          else
            icon ← get settings "icon";
            settings ← set settings "icon"
                         (iconObject (normalizeIconObject icon));
            icon ← get settings "icon";
            iconSrc ← get icon "src";
            if negb (isValidIcon iconSrc)
            then error MSG_ICON;; mret VUndefined
            else mret settings.

(** Lines 66-160. *)
Definition processBlockType (blockType : value) (select : Select)
  : M value :=
  name ← get blockType "name";
  settings ← callFilters HOOK (VObject Plain (ownProperties blockType))
               name VNull;
  checkDescription settings;;
  settings ← filterDeprecated blockType name settings;
  validateSettings name settings select.

(** Lines 191-204. *)
Definition __experimentalRegisterBlockType
    (blockType : value) (select : Select) : M unit :=
  dispatch (ADD_UNPROCESSED_BLOCK_TYPE blockType);;
  processedBlockType ← processBlockType blockType select;
  if negb (toBoolean processedBlockType)
  then mret ()
  else dispatch (addBlockTypes processedBlockType).

(** Lines 220-245. *)
Definition __experimentalReapplyBlockTypeFilters (select : Select)
  : M unit :=
  let unprocessedBlockTypes :=
    __experimentalGetUnprocessedBlockTypes select in
  processedBlockTypes ←
    reduceM
      (λ accumulator blockName,
         result ← processBlockType
                    (member unprocessedBlockTypes blockName) select;
         if toBoolean result
         then mret (accumulator ++ [result])
         else mret accumulator)
      (unprocessedBlockTypes.*1) [];
  if negb (bool_decide (length processedBlockTypes ≠ 0))
  then mret ()
  else dispatch (addBlockTypes (VArray processedBlockTypes)).

(** *** What a run computes

    The results and the traces of the steps above as functions of the
    settings, in which the claims are stated; the lemmas below show that
    the steps compute them. *)

(** The settings after lines 120-123. *)
Definition canonicalCategory (settings : value) : value :=
  match LEGACY_CATEGORY_MAPPING !! toPropertyKey (prop settings "category") with
  | Some latest => assign settings "category" latest
  | None => settings
  end.

(** The test of lines 125-130: a category is present after the legacy
    mapping and no registered category has it as slug. *)
Definition invalidCategory (select : Select) (settings : value) : bool :=
  hasProp (canonicalCategory settings) "category"
  && negb (knownCategory select (prop (canonicalCategory settings) "category")).

Definition categoryWarning (name : value) (select : Select) (settings : value)
  : list event :=
  if invalidCategory select settings
  then [ConsoleWarn
          (MSG_CATEGORY name (prop (canonicalCategory settings) "category"))]
  else [].

(** The settings after lines 120-139. *)
Definition normalizedCategory (select : Select) (settings : value) : value :=
  if invalidCategory select settings
  then remove (canonicalCategory settings) "category"
  else canonicalCategory settings.

(** The notice of lines 76-80. *)
Definition descriptionNotice (settings : value) : list event :=
  if toBoolean (prop settings "description")
     && negb (bool_decide (typeof (prop settings "description") = "string"))
  then [DeprecatedNotice "Declaring non-string block descriptions" "6.2"]
  else [].

(** A computation that hands nothing to [dispatch]. *)
Definition quiet {A} (m : M A) : Prop := dispatched (trace m) = [].

(** The candidate settings the filter chain returns for the live
    definition (lines 69-74). *)
Definition liveSettings (blockType : value) : value :=
  applyFilters HOOK (VObject Plain (ownProperties blockType))
    (prop blockType "name") VNull.

(** One entry of the processed [deprecated] sequence. *)
Definition filteredDeprecation (blockType deprecation : value) : value :=
  VObject Plain
    (filter (λ kv, kv.1 ∈ DEPRECATED_ENTRY_KEYS)
       (ownProperties
          (applyFilters HOOK (mergeDeprecation blockType deprecation)
             (prop blockType "name") deprecation))).

Definition deprecationCall (blockType deprecation : value) : event :=
  FilterCall HOOK (mergeDeprecation blockType deprecation)
    (prop blockType "name") deprecation.

(** Lines 82-104 complete: [settings.deprecated] is falsy, or it is an
    array and the filter chain returns an object for each entry. *)
Definition filtersDeprecated (blockType settings : value) : bool :=
  match prop settings "deprecated" with
  | VArray ds =>
      forallb
        (λ d, negb (isNullish
                      (applyFilters HOOK (mergeDeprecation blockType d)
                         (prop blockType "name") d)))
        ds
  | v => negb (toBoolean v)
  end.

(** Lines 67-104 complete, so that the checks of lines 106-159 run: the
    block type and the filtered settings can be read from, and the
    deprecations can be filtered. *)
Definition reachesValidation (blockType : value) : bool :=
  negb (isNullish blockType)
  && negb (isNullish (liveSettings blockType))
  && filtersDeprecated blockType (liveSettings blockType).

(** The settings after line 104. *)
Definition filteredSettings (blockType : value) : value :=
  match prop (liveSettings blockType) "deprecated" with
  | VArray ds =>
      assign (liveSettings blockType) "deprecated"
        (VArray (filteredDeprecation blockType <$> ds))
  | _ => liveSettings blockType
  end.

(** The trace of lines 67-104. *)
Definition filterTrace (blockType : value) : list event :=
  FilterCall HOOK (VObject Plain (ownProperties blockType))
    (prop blockType "name") VNull
  :: descriptionNotice (liveSettings blockType)
  ++ match prop (liveSettings blockType) "deprecated" with
     | VArray ds => deprecationCall blockType <$> ds
     | _ => []
     end.

(** The settings line 159 returns. *)
Definition accepted (select : Select) (settings : value) : value :=
  assign (normalizedCategory select settings) "icon"
    (iconObject (normalizeIconObject (prop settings "icon"))).

(** What one pass over an unprocessed block type yields for the batch
    of lines 226-238. *)
Definition reprocessed (select : Select) (blockType : value)
  : option value :=
  match outcome (processBlockType blockType select) with
  | Normal result => if toBoolean result then Some result else None
  | Throw _ => None
  end.

(** *** Example collaborators, block types and stores *)

(** A filter chain with no filter registered. *)
Definition noFilters (hookName : string) (v name context : value) : value :=
  v.

(** A filter that returns the settings wrapped in an array. *)
Definition wrappingFilter (hookName : string) (v name context : value)
  : value :=
  VArray [v].

(** A filter written without a [return]. *)
Definition forgetfulFilter (hookName : string) (v name context : value)
  : value :=
  VUndefined.

(** A filter that retitles what it is given and adds a class name. *)
Definition brandingFilter (hookName : string) (v name context : value)
  : value :=
  assign (assign v "title" (VString "Branded")) "className"
    (VString "branded").

(** An icon is a non-empty string or a component. *)
Definition validIcon (icon : value) : bool :=
  toBoolean icon
  && (bool_decide (typeof icon = "string")
      || bool_decide (typeof icon = "function")).

Definition normalizedIcon (icon : value) : BlockIconNormalized :=
  let icon := if toBoolean icon then icon else VString "block-default" in
  {| src := if validIcon icon then icon else prop icon "src";
     background := None; foreground := None; shadowColor := None |}.

Definition entryKeys : list string :=
  ["attributes"; "supports"; "save"; "migrate"; "isEligible"; "apiVersion"].

(** Two deprecations; neither declares [supports]. *)
Definition legacyAttributes : value :=
  VObject Plain {[ "attributes" := VObject Plain ∅; "legacy" := VBool true ]}.

Definition legacySave : value :=
  VObject Plain {[ "save" := VFunction 2 ]}.

Definition paragraph : value :=
  VObject Plain
    {[ "name" := VString "my/paragraph";
       "title" := VString "Paragraph";
       "category" := VString "common";
       "save" := VFunction 0;
       "supports" := VObject Plain {[ "align" := VBool true ]};
       "deprecated" := VArray [legacyAttributes; legacySave] ]}.

(** No [save]; a category that is not registered. *)
Definition unsaved : value :=
  VObject Plain
    {[ "name" := VString "my/unsaved";
       "title" := VString "Unsaved";
       "category" := VString "widgets-old" ]}.

(** An [edit] that is not a function; a category that is not registered. *)
Definition uneditable : value :=
  VObject Plain
    {[ "name" := VString "my/uneditable";
       "title" := VString "Uneditable";
       "category" := VString "widgets-old";
       "save" := VFunction 0;
       "edit" := VString "edit" ]}.

(** Valid, with a category that is not registered. *)
Definition gadget : value :=
  VObject Plain
    {[ "name" := VString "my/gadget";
       "title" := VString "Gadget";
       "category" := VString "widgets-old";
       "save" := VFunction 0 ]}.

(** No [title]; a category that is not registered. *)
Definition untitled : value :=
  VObject Plain
    {[ "name" := VString "my/untitled";
       "category" := VString "widgets-old";
       "save" := VFunction 0 ]}.

(** Valid, with the category given as a one-item array. *)
Definition listed : value :=
  VObject Plain
    {[ "name" := VString "my/listed";
       "title" := VString "Listed";
       "category" := VArray [VString "common"];
       "save" := VFunction 0 ]}.

Definition store : Select :=
  {| getCategories :=
       [ {| slug := "text"; title := "Text" |};
         {| slug := "media"; title := "Media" |};
         {| slug := "design"; title := "Design" |} ];
     __experimentalGetUnprocessedBlockTypes :=
       [ ("my/unsaved", unsaved);
         ("my/paragraph", paragraph);
         ("my/gadget", gadget) ] |}.

(** A store whose categories were replaced by [setCategories]. *)
Definition customStore : Select :=
  {| getCategories := [ {| slug := "custom"; title := "Custom" |} ];
     __experimentalGetUnprocessedBlockTypes :=
       [ ("my/unsaved", unsaved); ("my/uneditable", uneditable) ] |}.

(** *** Further projections *)

(** The notices of [@wordpress/deprecated] in a trace. *)
Definition notices (l : list event) : list (string * string) :=
  omap (λ e, match e with
             | DeprecatedNotice feature since => Some (feature, since)
             | _ => None
             end) l.

(** The block types a sequence of dispatched actions adds. *)
Definition addedBlockTypes (actions : list action) : list value :=
  concat (omap (λ a, match a with
                     | ADD_BLOCK_TYPES blockTypes => Some blockTypes
                     | _ => None
                     end) actions).

(** A computation that calls neither [error] nor [warn]. *)
Definition mute {A} (m : M A) : Prop :=
  errors (trace m) = [] ∧ warnings (trace m) = [].

(** *** Further examples *)

(** A [deprecated] that is not an array. *)
Definition malformed : value :=
  VObject Plain
    {[ "name" := VString "my/malformed";
       "title" := VString "Malformed";
       "save" := VFunction 0;
       "deprecated" := VString "v1" ]}.

Definition brokenStore : Select :=
  {| getCategories := getCategories store;
     __experimentalGetUnprocessedBlockTypes :=
       [ ("my/paragraph", paragraph); ("my/malformed", malformed) ] |}.

(** A filter with a branch written without a [return]: it returns
    nothing for the block [my/gadget] and its argument otherwise. *)
Definition lapsingFilter (hookName : string) (v name context : value)
  : value :=
  if strictEqualsString name "my/gadget" then VUndefined else v.

(** Valid, with a description that is an element rather than a string. *)
Definition described : value :=
  VObject Plain
    {[ "name" := VString "my/described";
       "title" := VString "Described";
       "description" := VObject Plain {[ "type" := VString "p" ]};
       "save" := VFunction 0 ]}.

(** ** Lemmas on the effects *)

(** *** Laws of [M] *)

Lemma M_eta {A} (m : M A) : Run (trace m) (outcome m) = m.
Proof. by destruct m. Qed.

Lemma ret_bind {A B} (a : A) (f : A → M B) : (mret a ≫= f) = f a.
Proof. apply M_eta. Qed.

Lemma run_bind {A B} l (a : A) (f : A → M B) :
  (Run l (Normal a) ≫= f) = Run (l ++ trace (f a)) (outcome (f a)).
Proof. reflexivity. Qed.

Lemma throw_bind {A B} l e (f : A → M B) :
  (Run l (Throw e) ≫= f) = Run l (Throw e).
Proof. reflexivity. Qed.

Lemma bind_outcome {A B} (m : M A) (f : A → M B) :
  outcome (m ≫= f)
  = match outcome m with Normal a => outcome (f a) | Throw e => Throw e end.
Proof. unfold mbind, M_mbind, M_bind. by destruct (outcome m). Qed.

Lemma bind_trace {A B} (m : M A) (f : A → M B) :
  trace (m ≫= f)
  = trace m ++ match outcome m with Normal a => trace (f a) | Throw _ => [] end.
Proof.
  unfold mbind, M_mbind, M_bind. destruct (outcome m); simpl; [done|].
  by rewrite app_nil_r.
Qed.

(** *** Property access that does not throw *)

Lemma get_defined v k : isNullish v = false → get v k = mret (prop v k).
Proof. unfold get. by intros ->. Qed.

Lemma has_object v k : isObjectType v = true → has k v = mret (hasProp v k).
Proof. unfold has. by intros ->. Qed.

Lemma set_object v k x :
  isObjectType v = true → set v k x = mret (assign v k x).
Proof. unfold set. by intros ->. Qed.

Lemma deleteProp_defined v k :
  isNullish v = false → deleteProp v k = mret (remove v k).
Proof. unfold deleteProp. by intros ->. Qed.

Lemma canonicalCategory_plain settings :
  isPlainObject (canonicalCategory settings) = isPlainObject settings.
Proof.
  unfold canonicalCategory. destruct (_ !! _); [|done]. by destruct settings.
Qed.

Lemma plain_isObjectType v : isPlainObject v = true → isObjectType v = true.
Proof. by destruct v as [| | | | | | |[]]. Qed.
Lemma plain_defined v : isPlainObject v = true → isNullish v = false.
Proof. by destruct v as [| | | | | | |[]]. Qed.

Lemma emit_bind {B} e (f : unit → M B) :
  (emit e ≫= f) = Run (e :: trace (f ())) (outcome (f ())).
Proof. reflexivity. Qed.

Lemma trace_ret {A} (a : A) : trace (mret a) = [].
Proof. reflexivity. Qed.
Lemma outcome_ret {A} (a : A) : outcome (mret a) = Normal a.
Proof. reflexivity. Qed.

(** One step of a run: binds on a known completion are resolved. *)
Ltac mstep :=
  repeat first
    [ rewrite ret_bind | rewrite run_bind | rewrite throw_bind
    | rewrite emit_bind | rewrite trace_ret | rewrite outcome_ret ];
  cbn [trace outcome]; cbv beta iota.

(** *** The category step and the checks *)

Lemma normalizeCategory_run name settings select :
  isPlainObject settings = true →
  normalizeCategory name settings select
  = Run (categoryWarning name select settings)
        (Normal (normalizedCategory select settings)).
Proof.
  intros Hp.
  unfold normalizeCategory, categoryWarning, normalizedCategory,
    invalidCategory.
  rewrite get_defined by by apply plain_defined. mstep.
  fold (canonicalCategory settings).
  assert (Hc : isPlainObject (canonicalCategory settings) = true)
    by by rewrite canonicalCategory_plain.
  assert (Hs : match LEGACY_CATEGORY_MAPPING
                       !! toPropertyKey (prop settings "category") with
               | Some latest => set settings "category" latest
               | None => mret settings
               end = mret (canonicalCategory settings)).
  { unfold canonicalCategory. destruct (_ !! _); [|done].
    by rewrite set_object by by apply plain_isObjectType. }
  rewrite Hs. mstep. unfold andM.
  rewrite has_object by by apply plain_isObjectType.
  rewrite !get_defined by by apply plain_defined.
  destruct (hasProp (canonicalCategory settings) "category"); mstep; [|done].
  destruct (knownCategory _ _); mstep; [done|]. unfold warn. mstep.
  rewrite deleteProp_defined by by apply plain_defined. done.
Qed.

(** Reads after an assignment or a deletion. *)
Ltac object_cases v :=
  destruct v; try done; unfold prop, hasProp, assign, remove.

Lemma prop_assign_ne v k k' x : k ≠ k' → prop (assign v k x) k' = prop v k'.
Proof. intros. object_cases v. by rewrite lookup_insert_ne. Qed.

Lemma prop_assign_eq v k x :
  isObjectType v = true → isNullish v = false →
  prop (assign v k x) k = match v with VObject _ _ => x | _ => VUndefined end.
Proof. intros. object_cases v. by rewrite lookup_insert_eq. Qed.

Lemma prop_remove_ne v k k' : k ≠ k' → prop (remove v k) k' = prop v k'.
Proof. intros. object_cases v. by rewrite lookup_delete_ne. Qed.

Lemma hasProp_assign_ne v k k' x :
  k ≠ k' → hasProp (assign v k x) k' = hasProp v k'.
Proof. intros. object_cases v. by rewrite lookup_insert_ne. Qed.

Lemma hasProp_remove_ne v k k' :
  k ≠ k' → hasProp (remove v k) k' = hasProp v k'.
Proof. intros. object_cases v. by rewrite lookup_delete_ne. Qed.

Lemma hasProp_remove_eq v k : hasProp (remove v k) k = false.
Proof.
  object_cases v. rewrite lookup_delete_eq.
  apply bool_decide_eq_false. by intros [].
Qed.

Lemma isPlainObject_assign v k x :
  isPlainObject (assign v k x) = isPlainObject v.
Proof. by destruct v. Qed.

Lemma isPlainObject_remove v k : isPlainObject (remove v k) = isPlainObject v.
Proof. by destruct v. Qed.

(** The category step touches no other key. *)
Lemma prop_canonicalCategory_ne settings k :
  k ≠ "category" → prop (canonicalCategory settings) k = prop settings k.
Proof.
  intros. unfold canonicalCategory. destruct (_ !! _); [|done].
  by apply prop_assign_ne.
Qed.

Lemma hasProp_canonicalCategory_ne settings k :
  k ≠ "category" →
  hasProp (canonicalCategory settings) k = hasProp settings k.
Proof.
  intros. unfold canonicalCategory. destruct (_ !! _); [|done].
  by apply hasProp_assign_ne.
Qed.

Lemma prop_normalizedCategory_ne select settings k :
  k ≠ "category" →
  prop (normalizedCategory select settings) k = prop settings k.
Proof.
  intros. unfold normalizedCategory. destruct (invalidCategory _ _).
  - rewrite prop_remove_ne by done. by apply prop_canonicalCategory_ne.
  - by apply prop_canonicalCategory_ne.
Qed.

Lemma hasProp_normalizedCategory_ne select settings k :
  k ≠ "category" →
  hasProp (normalizedCategory select settings) k = hasProp settings k.
Proof.
  intros. unfold normalizedCategory. destruct (invalidCategory _ _).
  - rewrite hasProp_remove_ne by done. by apply hasProp_canonicalCategory_ne.
  - by apply hasProp_canonicalCategory_ne.
Qed.

Lemma isPlainObject_normalizedCategory select settings :
  isPlainObject (normalizedCategory select settings) = isPlainObject settings.
Proof.
  unfold normalizedCategory. destruct (invalidCategory _ _).
  - by rewrite isPlainObject_remove, canonicalCategory_plain.
  - by rewrite canonicalCategory_plain.
Qed.

Lemma prop_iconObject_src icon : prop (iconObject icon) "src" = src icon.
Proof.
  unfold iconObject, prop.
  destruct (shadowColor icon), (foreground icon), (background icon);
    by rewrite ?lookup_insert_ne, lookup_singleton_eq by done.
Qed.

Lemma validateSettings_run name settings select :
  validateSettings name settings select
  = match Spec.validate isValidIcon normalizeIconObject settings with
    | Some r =>
        Run ((if beforeCategory r then []
              else categoryWarning name select settings)
             ++ [ConsoleError (diagnostic name r)])
            (Normal VUndefined)
    | None =>
        Run (categoryWarning name select settings)
            (Normal (accepted select settings))
    end.
Proof.
  unfold validateSettings, Spec.validate, error.
  destruct (isPlainObject settings) eqn:Hp; cbn [negb]; [|by mstep].
  pose proof (plain_defined _ Hp) as Hd.
  pose proof (plain_isObjectType _ Hp) as Ho.
  unfold andM, orM.
  rewrite !get_defined, !has_object by done. mstep.
  destruct (isFunction (prop settings "save")); cbn [negb]; [|done].
  destruct (hasProp settings "edit"); cbn [andb]; mstep.
  1: destruct (isFunction (prop settings "edit")); cbn [negb]; [|done].
  all: rewrite normalizeCategory_run by done; mstep.
  all: assert (Hp' := isPlainObject_normalizedCategory select settings);
    rewrite Hp in Hp';
    pose proof (plain_defined _ Hp') as Hd';
    pose proof (plain_isObjectType _ Hp') as Ho'.
  all: repeat (progress (rewrite ?get_defined, ?has_object, ?set_object
                           by done; mstep)).
  all: rewrite hasProp_normalizedCategory_ne, !prop_normalizedCategory_ne
         by done.
  all: fold (accepted select settings).
  all: assert (isPlainObject (accepted select settings) = true) as Hpa
    by by (unfold accepted; rewrite isPlainObject_assign).
  all: assert (prop (accepted select settings) "icon"
          = iconObject (normalizeIconObject (prop settings "icon"))) as Hic
    by (unfold accepted; rewrite prop_assign_eq by done;
        by destruct (normalizedCategory select settings) as [| | | | | | |[]]).
  all: rewrite (get_defined (accepted select settings))
         by by apply plain_defined.
  all: mstep; rewrite Hic, get_defined by done; mstep;
         rewrite prop_iconObject_src.
  all: destruct (hasProp settings "title"); cbn [negb orb]; mstep; [|done].
  all: destruct (strictEqualsString (prop settings "title") ""); [done|].
  all: destruct (bool_decide (typeof (prop settings "title") = "string"));
    cbn [negb]; [|done].
  all: destruct (isValidIcon _); cbn [negb]; [|done].
  all: by rewrite app_nil_r.
Qed.

(** *** The filter steps *)

Lemma checkDescription_run settings :
  isNullish settings = false →
  checkDescription settings = Run (descriptionNotice settings) (Normal ()).
Proof.
  intros Hd. unfold checkDescription, descriptionNotice, andM, deprecated.
  rewrite !get_defined by done. mstep.
  destruct (toBoolean _); cbn [andb]; mstep; [|done].
  by destruct (bool_decide _).
Qed.

Lemma fromEntries_lookup (l : list (string * value)) (m : gmap string value) k :
  NoDup l.*1 →
  foldl (λ m kv, <[kv.1 := kv.2]> m) m l !! k
  = match list_to_map (M := gmap string value) l !! k with
    | Some v => Some v
    | None => m !! k
    end.
Proof.
  revert m. induction l as [|[k' v'] l IH]; intros m Hnd; [done|].
  apply NoDup_cons in Hnd as [Hk' Hnd]. cbn [foldl fst snd].
  rewrite IH by done. cbn [list_to_map foldr uncurry fst snd].
  destruct (decide (k' = k)) as [->|Hne].
  - rewrite lookup_insert_eq.
    by rewrite (not_elem_of_list_to_map_1 _ _ Hk'), lookup_insert_eq.
  - by rewrite !lookup_insert_ne by done.
Qed.

Lemma fromEntries_filter (P : string * value → Prop) `{!∀ x, Decision (P x)}
    (m : gmap string value) :
  Object_fromEntries (filter P (map_to_list m)) = VObject Plain (filter P m).
Proof.
  unfold Object_fromEntries. f_equal. apply map_eq. intros k.
  rewrite fromEntries_lookup.
  - rewrite lookup_empty.
    destruct (filter P m !! k) as [v|] eqn:Hf.
    + apply map_lookup_filter_Some in Hf as [Hm HP].
      erewrite (elem_of_list_to_map_1 _ k v); [done| |].
      * eapply NoDup_fmap_fst; [|apply NoDup_filter, NoDup_map_to_list].
        intros k0 v1 v2 [_ H1]%list_elem_of_filter [_ H2]%list_elem_of_filter.
        apply elem_of_map_to_list in H1, H2. congruence.
      * apply list_elem_of_filter. by rewrite elem_of_map_to_list.
    + destruct (list_to_map _ !! k) as [v|] eqn:Hl; [|done].
      apply elem_of_list_to_map_2 in Hl.
      apply list_elem_of_filter in Hl as [HP Hm%elem_of_map_to_list].
      assert (filter P m !! k = Some v) by by apply map_lookup_filter_Some.
      congruence.
  - eapply NoDup_fmap_fst; [|apply NoDup_filter, NoDup_map_to_list].
    intros k0 v1 v2 [_ H1]%list_elem_of_filter [_ H2]%list_elem_of_filter.
    apply elem_of_map_to_list in H1, H2. congruence.
Qed.

Lemma mapM_run {A B} (f : A → M B) (t : A → list event) (g : A → B) l :
  Forall (λ x, f x = Run (t x) (Normal (g x))) l →
  mapM f l = Run (concat (t <$> l)) (Normal (g <$> l)).
Proof.
  induction 1 as [|x l Hx _ IH]; [done|].
  cbn [mapM]. rewrite Hx, IH. mstep. cbn [trace outcome fmap list_fmap concat].
  by rewrite app_nil_r.
Qed.

Lemma mapM_throws {A B} (f : A → M B) l :
  Exists (λ x, ∃ e, outcome (f x) = Throw e) l →
  ∃ e, outcome (mapM f l) = Throw e.
Proof.
  induction 1 as [x l [e He]|x l _ [e IH]]; cbn [mapM];
    rewrite bind_outcome.
  - rewrite He. eauto.
  - destruct (outcome (f x)); [|eauto].
    rewrite bind_outcome, IH. eauto.
Qed.

Lemma callFilters_run h v n c :
  callFilters h v n c
  = Run [FilterCall h v n c] (Normal (applyFilters h v n c)).
Proof. reflexivity. Qed.

Lemma filterDeprecation_run blockType d :
  isNullish (applyFilters HOOK
               (mergeDeprecation blockType d)
               (prop blockType "name") d) = false →
  filterDeprecation blockType
    (prop blockType "name") d
  = Run [deprecationCall blockType d]
        (Normal (filteredDeprecation blockType d)).
Proof.
  intros Hd. unfold filterDeprecation, Object_entries.
  rewrite callFilters_run. mstep. rewrite Hd. mstep.
  by rewrite fromEntries_filter.
Qed.

Lemma filterDeprecation_throws blockType d :
  isNullish (applyFilters HOOK
               (mergeDeprecation blockType d)
               (prop blockType "name") d) = true →
  ∃ e, outcome (filterDeprecation blockType
                  (prop blockType "name") d) = Throw e.
Proof.
  intros Hd. unfold filterDeprecation, Object_entries.
  rewrite callFilters_run. mstep. rewrite Hd. cbn. eauto.
Qed.

Lemma filterDeprecated_run blockType :
  isNullish (liveSettings blockType) = false →
  filtersDeprecated blockType (liveSettings blockType) = true →
  filterDeprecated blockType
    (prop blockType "name") (liveSettings blockType)
  = Run (match prop (liveSettings blockType) "deprecated" with
         | VArray ds => deprecationCall blockType <$> ds
         | _ => []
         end)
        (Normal (filteredSettings blockType)).
Proof.
  intros Hd Hf.
  unfold filterDeprecated, filteredSettings, filtersDeprecated in *.
  rewrite !get_defined by done. mstep.
  destruct (prop (liveSettings blockType) "deprecated")
    as [| | | | | |ds|] eqn:Hp;
    cbn [toBoolean] in *; try done;
    try (apply negb_true_iff in Hf; by rewrite Hf).
  unfold callMap.
  rewrite (mapM_run _ (λ d, [deprecationCall blockType d])
             (filteredDeprecation blockType)).
  - mstep. rewrite set_object; [mstep|].
    + rewrite !app_nil_r. f_equal.
      clear. induction ds as [|d ds IH]; [done|]. cbn. by rewrite <- IH.
    + by destruct (liveSettings blockType).
  - apply Forall_forall. intros d Hin. apply filterDeprecation_run.
    rewrite forallb_forall in Hf. apply negb_true_iff, Hf.
    by apply list_elem_of_In.
Qed.

Lemma processBlockType_reaches blockType select :
  reachesValidation blockType = true →
  processBlockType blockType select
  = Run (filterTrace blockType
         ++ trace (validateSettings (prop blockType "name")
                     (filteredSettings blockType)
                     select))
        (outcome (validateSettings (prop blockType "name")
                    (filteredSettings blockType)
                    select)).
Proof.
  unfold reachesValidation. intros [[Hb Hs]%andb_true_iff Hf]%andb_true_iff.
  apply negb_true_iff in Hb, Hs. unfold processBlockType.
  rewrite get_defined by done. mstep. rewrite callFilters_run. mstep.
  fold (liveSettings blockType).
  rewrite checkDescription_run by done. mstep.
  rewrite filterDeprecated_run by done. mstep.
  unfold filterTrace. cbn [app]. by rewrite <- app_assoc.
Qed.

Lemma processBlockType_throws blockType select :
  reachesValidation blockType = false →
  ∃ e, outcome (processBlockType blockType select) = Throw e.
Proof.
  unfold reachesValidation, processBlockType. intros Hr.
  destruct (isNullish blockType) eqn:Hb.
  { unfold get. rewrite Hb. cbn. eauto. }
  rewrite get_defined by done. mstep. rewrite callFilters_run. mstep.
  fold (liveSettings blockType). cbn [outcome].
  destruct (isNullish (liveSettings blockType)) eqn:Hs.
  { unfold checkDescription, andM, get. rewrite Hs. cbn. eauto. }
  rewrite checkDescription_run by done. mstep. cbn [outcome].
  cbn [negb andb] in Hr. rewrite bind_outcome.
  cut (∃ e, outcome (filterDeprecated blockType (prop blockType "name")
                       (liveSettings blockType)) = Throw e).
  { intros [e ->]. eauto. }
  unfold filterDeprecated, filtersDeprecated in *.
  rewrite !get_defined by done. mstep.
  destruct (prop (liveSettings blockType) "deprecated") as [| | |n|s|f|ds|c p];
    cbn [toBoolean negb] in *; try done;
    try (apply negb_false_iff in Hr; rewrite Hr); try (cbn; by eauto).
  rewrite bind_outcome. unfold callMap. rewrite bind_outcome.
  destruct (mapM_throws (filterDeprecation blockType (prop blockType "name"))
              ds) as [e ->];
    [|eauto].
  clear -Hr. induction ds as [|d ds IH]; [done|].
  cbn [forallb] in Hr. apply andb_false_iff in Hr as [Hd|Hds].
  - left. apply filterDeprecation_throws. by apply negb_false_iff.
  - right. by apply IH.
Qed.

(** *** [processBlockType] dispatches nothing *)

Lemma dispatched_app l1 l2 :
  dispatched (l1 ++ l2) = dispatched l1 ++ dispatched l2.
Proof. apply omap_app. Qed.

Lemma quiet_bind {A B} (m : M A) (f : A → M B) :
  quiet m → (∀ a, quiet (f a)) → quiet (m ≫= f).
Proof.
  unfold quiet. intros Hm Hf. rewrite bind_trace, dispatched_app, Hm.
  destruct (outcome m); [apply Hf|done].
Qed.

Lemma quiet_mapM {A B} (f : A → M B) l :
  (∀ x, quiet (f x)) → quiet (mapM f l).
Proof.
  intros Hf. induction l as [|x l IH]; [done|]. cbn [mapM].
  apply quiet_bind; [done|]. intros y. apply quiet_bind; [done|]. by intros ys.
Qed.

Ltac quiet_steps :=
  repeat first
    [ apply quiet_bind; [|intros ?]
    | apply quiet_mapM; intros ?
    | reflexivity
    | case_match ].

Lemma processBlockType_quiet blockType select :
  quiet (processBlockType blockType select).
Proof.
  unfold processBlockType, validateSettings, normalizeCategory,
    filterDeprecated, filterDeprecation, checkDescription, callFilters,
    callMap, andM, orM, Object_entries, get, has, set, deleteProp,
    error, warn, deprecated.
  quiet_steps.
Qed.

(** ** One run of [processBlockType] *)

Lemma assign_assign_ne v k k' x y :
  k ≠ k' → assign (assign v k x) k' y = assign (assign v k' y) k x.
Proof.
  intros. destruct v; try done. unfold assign. f_equal.
  by apply insert_insert_ne.
Qed.

Lemma remove_assign_ne v k k' x :
  k ≠ k' → remove (assign v k x) k' = assign (remove v k') k x.
Proof.
  intros. destruct v; try done. unfold assign, remove. f_equal.
  by apply delete_insert_ne.
Qed.

Lemma canonicalCategory_assign_ne settings k x :
  k ≠ "category" →
  canonicalCategory (assign settings k x)
  = assign (canonicalCategory settings) k x.
Proof.
  intros. unfold canonicalCategory. rewrite prop_assign_ne by done.
  destruct (_ !! _); [|done]. by apply assign_assign_ne.
Qed.

Lemma invalidCategory_assign_ne select settings k x :
  k ≠ "category" →
  invalidCategory select (assign settings k x)
  = invalidCategory select settings.
Proof.
  intros. unfold invalidCategory. rewrite canonicalCategory_assign_ne by done.
  by rewrite hasProp_assign_ne, prop_assign_ne.
Qed.

Lemma normalizedCategory_assign_ne select settings k x :
  k ≠ "category" →
  normalizedCategory select (assign settings k x)
  = assign (normalizedCategory select settings) k x.
Proof.
  intros. unfold normalizedCategory.
  rewrite invalidCategory_assign_ne, canonicalCategory_assign_ne by done.
  destruct (invalidCategory _ _); [|done]. by apply remove_assign_ne.
Qed.

Lemma categoryWarning_assign_ne name select settings k x :
  k ≠ "category" →
  categoryWarning name select (assign settings k x)
  = categoryWarning name select settings.
Proof.
  intros. unfold categoryWarning.
  rewrite invalidCategory_assign_ne, canonicalCategory_assign_ne by done.
  by rewrite prop_assign_ne.
Qed.

Lemma validate_assign_deprecated settings x :
  Spec.validate isValidIcon normalizeIconObject (assign settings "deprecated" x)
  = Spec.validate isValidIcon normalizeIconObject settings.
Proof.
  unfold Spec.validate.
  by rewrite isPlainObject_assign, !prop_assign_ne, !hasProp_assign_ne.
Qed.

Lemma validate_filteredSettings blockType :
  Spec.validate isValidIcon normalizeIconObject (filteredSettings blockType)
  = Spec.validate isValidIcon normalizeIconObject (liveSettings blockType).
Proof.
  unfold filteredSettings.
  destruct (prop (liveSettings blockType) "deprecated"); try done.
  apply validate_assign_deprecated.
Qed.

Lemma categoryWarning_filteredSettings name select blockType :
  categoryWarning name select (filteredSettings blockType)
  = categoryWarning name select (liveSettings blockType).
Proof.
  unfold filteredSettings.
  destruct (prop (liveSettings blockType) "deprecated"); try done.
  by apply categoryWarning_assign_ne.
Qed.

(** A run that reaches the checks is decided by [Spec.validate] on the
    filtered settings. *)
Lemma processBlockType_run blockType select :
  reachesValidation blockType = true →
  processBlockType blockType select
  = match Spec.validate isValidIcon normalizeIconObject
            (liveSettings blockType) with
    | Some r =>
        Run (filterTrace blockType
             ++ (if beforeCategory r then []
                 else categoryWarning (prop blockType "name") select
                        (liveSettings blockType))
             ++ [ConsoleError (diagnostic (prop blockType "name") r)])
            (Normal VUndefined)
    | None =>
        Run (filterTrace blockType
             ++ categoryWarning (prop blockType "name") select
                  (liveSettings blockType))
            (Normal (accepted select (filteredSettings blockType)))
    end.
Proof.
  intros Hr. rewrite processBlockType_reaches by done.
  rewrite validateSettings_run, validate_filteredSettings,
    categoryWarning_filteredSettings.
  by destruct (Spec.validate _ _ _).
Qed.

Lemma errors_app l1 l2 : errors (l1 ++ l2) = errors l1 ++ errors l2.
Proof. apply omap_app. Qed.
Lemma warnings_app l1 l2 : warnings (l1 ++ l2) = warnings l1 ++ warnings l2.
Proof. apply omap_app. Qed.
Lemma filterCalls_app l1 l2 :
  filterCalls (l1 ++ l2) = filterCalls l1 ++ filterCalls l2.
Proof. apply omap_app. Qed.

Lemma errors_descriptionNotice settings :
  errors (descriptionNotice settings) = [].
Proof. unfold descriptionNotice. by destruct (_ && _). Qed.
Lemma warnings_descriptionNotice settings :
  warnings (descriptionNotice settings) = [].
Proof. unfold descriptionNotice. by destruct (_ && _). Qed.
Lemma filterCalls_descriptionNotice settings :
  filterCalls (descriptionNotice settings) = [].
Proof. unfold descriptionNotice. by destruct (_ && _). Qed.

Lemma errors_deprecationCalls blockType ds :
  errors (deprecationCall blockType <$> ds) = [].
Proof. by induction ds. Qed.
Lemma warnings_deprecationCalls blockType ds :
  warnings (deprecationCall blockType <$> ds) = [].
Proof. by induction ds. Qed.

Lemma errors_filterTrace blockType : errors (filterTrace blockType) = [].
Proof.
  unfold filterTrace. cbn [errors omap list_omap].
  fold (errors (descriptionNotice (liveSettings blockType) ++
    match prop (liveSettings blockType) "deprecated" with
    | VArray ds => deprecationCall blockType <$> ds | _ => [] end)).
  rewrite errors_app, errors_descriptionNotice.
  destruct (prop _ _); try done. apply errors_deprecationCalls.
Qed.

Lemma warnings_filterTrace blockType : warnings (filterTrace blockType) = [].
Proof.
  unfold filterTrace. cbn [warnings omap list_omap].
  fold (warnings (descriptionNotice (liveSettings blockType) ++
    match prop (liveSettings blockType) "deprecated" with
    | VArray ds => deprecationCall blockType <$> ds | _ => [] end)).
  rewrite warnings_app, warnings_descriptionNotice.
  destruct (prop _ _); try done. apply warnings_deprecationCalls.
Qed.

Lemma errors_categoryWarning name select settings :
  errors (categoryWarning name select settings) = [].
Proof. unfold categoryWarning. by destruct (invalidCategory _ _). Qed.

Lemma filterCalls_categoryWarning name select settings :
  filterCalls (categoryWarning name select settings) = [].
Proof. unfold categoryWarning. by destruct (invalidCategory _ _). Qed.

Lemma isPlainObject_accepted select settings :
  isPlainObject (accepted select settings) = isPlainObject settings.
Proof.
  unfold accepted.
  by rewrite isPlainObject_assign, isPlainObject_normalizedCategory.
Qed.

Lemma validate_None_plain settings :
  Spec.validate isValidIcon normalizeIconObject settings = None →
  isPlainObject settings = true.
Proof. unfold Spec.validate. by destruct (isPlainObject settings). Qed.

Lemma isPlainObject_filteredSettings blockType :
  isPlainObject (filteredSettings blockType)
  = isPlainObject (liveSettings blockType).
Proof.
  unfold filteredSettings. destruct (prop _ _); try done.
  apply isPlainObject_assign.
Qed.

(** ** The claims *)

(** The order of the checks: a run that reaches line 106 applies them in
    the order of [Spec.validate] (plain object, [save], [edit], title
    present and not empty, title a string, icon) and stops at the first
    that fails, returning [undefined] with exactly one [console.error],
    the one of that check; the two title checks have different messages;
    settings that pass all the checks are returned. *)
Theorem validation_order blockType select :
  reachesValidation blockType = true →
  MSG_TITLE (prop blockType "name") ≠ MSG_TITLE_TYPE
  ∧ match Spec.validate isValidIcon normalizeIconObject
            (liveSettings blockType) with
    | Some r =>
        outcome (processBlockType blockType select) = Normal VUndefined
        ∧ errors (trace (processBlockType blockType select))
          = [diagnostic (prop blockType "name") r]
    | None =>
        outcome (processBlockType blockType select)
        = Normal (accepted select (filteredSettings blockType))
        ∧ isPlainObject (accepted select (filteredSettings blockType)) = true
        ∧ errors (trace (processBlockType blockType select)) = []
    end.
Proof.
  intros Hr. split; [by intros [=]|].
  rewrite processBlockType_run by done.
  destruct (Spec.validate _ _ _) as [r|] eqn:Hv; cbn [trace outcome].
  - split; [done|].
    rewrite !errors_app, errors_filterTrace.
    by destruct (beforeCategory r); rewrite ?errors_categoryWarning.
  - split; [done|]. split.
    + rewrite isPlainObject_accepted, isPlainObject_filteredSettings.
      by apply validate_None_plain.
    + by rewrite errors_app, errors_filterTrace, errors_categoryWarning.
Qed.

Lemma registerBlockType_trace blockType select :
  trace (__experimentalRegisterBlockType blockType select)
  = Dispatched (ADD_UNPROCESSED_BLOCK_TYPE blockType)
    :: trace (processBlockType blockType select)
    ++ match reprocessed select blockType with
       | Some result => [Dispatched (addBlockTypes result)]
       | None => []
       end.
Proof.
  unfold __experimentalRegisterBlockType, dispatch, reprocessed. mstep.
  rewrite bind_trace. do 2 f_equal.
  destruct (outcome (processBlockType blockType select)) as [r|]; [|done].
  by destruct (toBoolean r).
Qed.

Lemma registerBlockType_dispatched blockType select :
  dispatched (trace (__experimentalRegisterBlockType blockType select))
  = ADD_UNPROCESSED_BLOCK_TYPE blockType
    :: match reprocessed select blockType with
       | Some result => [addBlockTypes result]
       | None => []
       end.
Proof.
  rewrite registerBlockType_trace. cbn [dispatched omap list_omap].
  f_equal. fold (dispatched (trace (processBlockType blockType select) ++
    match reprocessed select blockType with
    | Some result => [Dispatched (addBlockTypes result)] | None => [] end)).
  rewrite dispatched_app, processBlockType_quiet.
  by destruct (reprocessed _ _).
Qed.

Lemma validate_without_save settings :
  isFunction (prop settings "save") = false →
  Spec.validate isValidIcon normalizeIconObject settings
  = Some (if isPlainObject settings then Spec.MissingRequiredCallable
          else Spec.MalformedDefinition).
Proof.
  intros Hs. unfold Spec.validate. rewrite Hs.
  by destruct (isPlainObject settings).
Qed.

(** C2 (amended): when the filtered settings have no callable [save], the
    registration dispatches [ADD_UNPROCESSED_BLOCK_TYPE] and nothing else,
    so no [ADD_BLOCK_TYPES]; and a run that reaches the checks returns
    [undefined] after exactly one [console.error]: the [save] message when
    the settings are a plain object, the message of the plain-object check
    otherwise. *)
Theorem registration_without_save blockType select :
  isFunction (prop (liveSettings blockType) "save") = false →
  dispatched (trace (__experimentalRegisterBlockType blockType select))
  = [ADD_UNPROCESSED_BLOCK_TYPE blockType]
  ∧ (reachesValidation blockType = true →
     outcome (processBlockType blockType select) = Normal VUndefined
     ∧ errors (trace (processBlockType blockType select))
       = [if isPlainObject (liveSettings blockType)
          then MSG_SAVE else MSG_SETTINGS]).
Proof.
  intros Hs. pose proof (validate_without_save _ Hs) as Hv.
  assert (Hrun : reachesValidation blockType = true →
    processBlockType blockType select
    = Run (filterTrace blockType
           ++ [ConsoleError
                 (if isPlainObject (liveSettings blockType)
                  then MSG_SAVE else MSG_SETTINGS)])
          (Normal VUndefined)).
  { intros Hr. rewrite processBlockType_run, Hv by done.
    by destruct (isPlainObject (liveSettings blockType)). }
  split.
  - rewrite registerBlockType_dispatched. f_equal. unfold reprocessed.
    destruct (reachesValidation blockType) eqn:Hr.
    + by rewrite Hrun.
    + by destruct (processBlockType_throws blockType select Hr) as [e ->].
  - intros Hr. rewrite Hrun by done. cbn [trace outcome]. split; [done|].
    by rewrite errors_app, errors_filterTrace.
Qed.

(** C1: the plain-object check is not reached by settings that are [null]
    or [undefined].  The validator of the specification refuses them at
    its first check, which is a return of [undefined] after the
    diagnostic of line 107; [processBlockType] throws instead, at line
    76, and emits no diagnostic. *)
Theorem plain_object_check_unreached blockType select :
  isNullish blockType = false →
  isNullish (liveSettings blockType) = true →
  Spec.validate isValidIcon normalizeIconObject (liveSettings blockType)
  = Some Spec.MalformedDefinition
  ∧ (∃ e, outcome (processBlockType blockType select) = Throw e)
  ∧ errors (trace (processBlockType blockType select)) = [].
Proof.
  intros Hb Hs. split.
  { by destruct (liveSettings blockType). }
  unfold processBlockType.
  rewrite get_defined by done. mstep. rewrite callFilters_run. mstep.
  fold (liveSettings blockType).
  unfold checkDescription, andM, get. rewrite Hs. cbn. eauto.
Qed.

(** C3: when the filter chain returns [null] or [undefined] for the live
    definition, [processBlockType] throws on reading
    [settings.description] (line 76), before the guard of line 106, and
    no diagnostic is emitted. *)
Theorem nullish_settings_throw blockType select :
  isNullish blockType = false →
  isNullish (liveSettings blockType) = true →
  (∃ e, outcome (processBlockType blockType select) = Throw e)
  ∧ errors (trace (processBlockType blockType select)) = []
  ∧ warnings (trace (processBlockType blockType select)) = [].
Proof.
  intros Hb Hs. unfold processBlockType.
  rewrite get_defined by done. mstep. rewrite callFilters_run. mstep.
  fold (liveSettings blockType).
  unfold checkDescription, andM, get. rewrite Hs. cbn. eauto.
Qed.

(** C8: [__experimentalRegisterBlockType] dispatches
    [ADD_UNPROCESSED_BLOCK_TYPE] with the raw block type first, before
    anything [processBlockType] does and whatever its completion; the only
    other action it can dispatch is the [ADD_BLOCK_TYPES] of an accepted
    result. *)
Theorem raw_block_type_recorded blockType select :
  trace (__experimentalRegisterBlockType blockType select)
  = Dispatched (ADD_UNPROCESSED_BLOCK_TYPE blockType)
    :: trace (processBlockType blockType select)
    ++ match reprocessed select blockType with
       | Some result => [Dispatched (addBlockTypes result)]
       | None => []
       end
  ∧ dispatched (trace (__experimentalRegisterBlockType blockType select))
    = ADD_UNPROCESSED_BLOCK_TYPE blockType
      :: match reprocessed select blockType with
         | Some result => [ADD_BLOCK_TYPES [result]]
         | None => []
         end.
Proof.
  split; [apply registerBlockType_trace|].
  rewrite registerBlockType_dispatched. f_equal.
  unfold reprocessed.
  destruct (reachesValidation blockType) eqn:Hr.
  - rewrite processBlockType_run by done.
    destruct (Spec.validate _ _ _) eqn:Hv; cbn [outcome toBoolean]; [done|].
    pose proof (validate_None_plain _ Hv) as Hp.
    rewrite <- isPlainObject_filteredSettings,
      <- (isPlainObject_accepted select) in Hp.
    by destruct (accepted select (filteredSettings blockType))
      as [| | | | | | |[]].
  - by destruct (processBlockType_throws blockType select Hr) as [e ->].
Qed.

Lemma invalidCategory_filteredSettings select blockType :
  invalidCategory select (filteredSettings blockType)
  = invalidCategory select (liveSettings blockType).
Proof.
  unfold filteredSettings.
  destruct (prop (liveSettings blockType) "deprecated"); try done.
  by apply invalidCategory_assign_ne.
Qed.

Lemma canonicalCategory_filteredSettings blockType :
  prop (canonicalCategory (filteredSettings blockType)) "category"
  = prop (canonicalCategory (liveSettings blockType)) "category".
Proof.
  unfold filteredSettings.
  destruct (prop (liveSettings blockType) "deprecated"); try done.
  by rewrite canonicalCategory_assign_ne, prop_assign_ne.
Qed.

Lemma hasProp_canonicalCategory_filteredSettings blockType :
  hasProp (canonicalCategory (filteredSettings blockType)) "category"
  = hasProp (canonicalCategory (liveSettings blockType)) "category".
Proof.
  unfold filteredSettings.
  destruct (prop (liveSettings blockType) "deprecated"); try done.
  by rewrite canonicalCategory_assign_ne, hasProp_assign_ne.
Qed.

Lemma prop_absent v k : hasProp v k = false → prop v k = VUndefined.
Proof.
  destruct v; try done. unfold hasProp, prop. intros Hk%bool_decide_eq_false.
  destruct (props !! k); [|done]. by destruct Hk.
Qed.

Lemma canonicalCategory_absent settings :
  hasProp settings "category" = false → canonicalCategory settings = settings.
Proof.
  intros Hk. unfold canonicalCategory. by rewrite (prop_absent _ _ Hk).
Qed.

Lemma hasProp_accepted_category select settings :
  hasProp (accepted select settings) "category"
  = negb (invalidCategory select settings)
    && hasProp (canonicalCategory settings) "category".
Proof.
  unfold accepted, normalizedCategory. rewrite hasProp_assign_ne by done.
  destruct (invalidCategory select settings); [|done].
  by rewrite hasProp_remove_eq.
Qed.

Lemma prop_accepted_category select settings :
  invalidCategory select settings = false →
  prop (accepted select settings) "category"
  = prop (canonicalCategory settings) "category".
Proof.
  intros Hi. unfold accepted, normalizedCategory.
  by rewrite prop_assign_ne, Hi.
Qed.

Lemma warnings_categoryWarning name select settings :
  warnings (categoryWarning name select settings)
  = if invalidCategory select settings
    then [MSG_CATEGORY name (prop (canonicalCategory settings) "category")]
    else [].
Proof. unfold categoryWarning. by destruct (invalidCategory _ _). Qed.

Lemma LEGACY_CATEGORY_MAPPING_None k :
  k ∉ ["common"; "formatting"; "layout"] →
  LEGACY_CATEGORY_MAPPING !! k = None.
Proof.
  intros Hk. unfold LEGACY_CATEGORY_MAPPING.
  rewrite !lookup_insert_ne, lookup_singleton_ne; [done|..];
    intros <-; apply Hk; set_solver.
Qed.

Lemma LEGACY_CATEGORY_MAPPING_Some legacy latest :
  (legacy, latest) ∈ [("common", "text"); ("formatting", "text");
                      ("layout", "design")] →
  LEGACY_CATEGORY_MAPPING !! legacy = Some (VString latest).
Proof.
  rewrite !elem_of_cons, elem_of_nil.
  by intros [[= -> ->]|[[= -> ->]|[[= -> ->]|[]]]].
Qed.

(** C4 (amended): for settings that pass the plain-object, [save] and
    [edit] checks and whose category, after the legacy mapping, is present
    and is the slug of no registered category, the run emits exactly one
    [console.warn], naming the block and that category, and goes on to the
    title and icon checks; when these pass the settings are returned
    without a [category]. *)
Theorem unknown_category_dropped blockType select :
  reachesValidation blockType = true →
  (∀ r, Spec.validate isValidIcon normalizeIconObject (liveSettings blockType)
        = Some r → beforeCategory r = false) →
  invalidCategory select (liveSettings blockType) = true →
  warnings (trace (processBlockType blockType select))
  = [MSG_CATEGORY (prop blockType "name")
       (prop (canonicalCategory (liveSettings blockType)) "category")]
  ∧ match Spec.validate isValidIcon normalizeIconObject
            (liveSettings blockType) with
    | Some r =>
        outcome (processBlockType blockType select) = Normal VUndefined
        ∧ errors (trace (processBlockType blockType select))
          = [diagnostic (prop blockType "name") r]
    | None =>
        outcome (processBlockType blockType select)
        = Normal (accepted select (filteredSettings blockType))
        ∧ isPlainObject (accepted select (filteredSettings blockType)) = true
        ∧ hasProp (accepted select (filteredSettings blockType)) "category"
          = false
    end.
Proof.
  intros Hr Hpass Hinv. rewrite processBlockType_run by done.
  destruct (Spec.validate _ _ _) as [r|] eqn:Hv; cbn [trace outcome].
  - rewrite (Hpass r eq_refl).
    rewrite !warnings_app, warnings_filterTrace, warnings_categoryWarning, Hinv.
    rewrite !errors_app, errors_filterTrace, errors_categoryWarning.
    done.
  - rewrite warnings_app, warnings_filterTrace, warnings_categoryWarning, Hinv.
    split; [done|]. split; [done|]. split.
    + rewrite isPlainObject_accepted, isPlainObject_filteredSettings.
      by apply validate_None_plain.
    + by rewrite hasProp_accepted_category, invalidCategory_filteredSettings,
        Hinv.
Qed.

(** C5 (amended): in returned settings, a category whose property key is
    [common], [formatting] or [layout] has become [text], [text] or
    [design] when that slug is registered, and is dropped when it is
    not; a category with any other property key is never
    rewritten: when the result has a category it is the filtered one. *)
Theorem legacy_category_mapping blockType select :
  reachesValidation blockType = true →
  Spec.validate isValidIcon normalizeIconObject (liveSettings blockType)
  = None →
  outcome (processBlockType blockType select)
  = Normal (accepted select (filteredSettings blockType))
  ∧ (∀ legacy latest,
       (legacy, latest) ∈ [("common", "text"); ("formatting", "text");
                           ("layout", "design")] →
       toPropertyKey (prop (liveSettings blockType) "category") = legacy →
       if knownCategory select (VString latest)
       then prop (accepted select (filteredSettings blockType)) "category"
            = VString latest
       else hasProp (accepted select (filteredSettings blockType)) "category"
            = false)
  ∧ (toPropertyKey (prop (liveSettings blockType) "category")
       ∉ ["common"; "formatting"; "layout"] →
     hasProp (accepted select (filteredSettings blockType)) "category" = true →
     prop (accepted select (filteredSettings blockType)) "category"
     = prop (liveSettings blockType) "category").
Proof.
  intros Hr Hv. rewrite processBlockType_run, Hv by done.
  split; [done|].
  pose proof (validate_None_plain _ Hv) as Hp.
  rewrite hasProp_accepted_category, invalidCategory_filteredSettings.
  split.
  - intros legacy latest Hin Hkey.
    pose proof (LEGACY_CATEGORY_MAPPING_Some _ _ Hin) as Hm.
    assert (Hc : canonicalCategory (liveSettings blockType)
                 = assign (liveSettings blockType) "category" (VString latest))
      by (unfold canonicalCategory; by rewrite Hkey, Hm).
    assert (Hcat : prop (canonicalCategory (liveSettings blockType)) "category"
                   = VString latest).
    { rewrite Hc, prop_assign_eq.
      - by destruct (liveSettings blockType) as [| | | | | | |[]].
      - by apply plain_isObjectType.
      - by apply plain_defined. }
    assert (Hhas : hasProp (canonicalCategory (liveSettings blockType))
                     "category" = true).
    { rewrite Hc. destruct (liveSettings blockType) as [| | | | | | |[] p];
        try done.
      unfold hasProp, assign. rewrite lookup_insert_eq.
      by apply bool_decide_eq_true. }
    assert (Hinv : invalidCategory select (liveSettings blockType)
                   = negb (knownCategory select (VString latest)))
      by (unfold invalidCategory; by rewrite Hhas, Hcat).
    rewrite Hinv. destruct (knownCategory select (VString latest)); [|done].
    rewrite prop_accepted_category
      by by rewrite invalidCategory_filteredSettings, Hinv.
    by rewrite canonicalCategory_filteredSettings.
  - intros Hkey [Hinv _]%andb_true_iff. apply negb_true_iff in Hinv.
    rewrite prop_accepted_category
      by by rewrite invalidCategory_filteredSettings.
    rewrite canonicalCategory_filteredSettings. unfold canonicalCategory.
    by rewrite LEGACY_CATEGORY_MAPPING_None.
Qed.

(** C6 (amended): the category step runs after the plain-object, [save]
    and [edit] checks and before the title and icon checks.  A rejection by
    one of the first three is decided with nothing done to the category (no
    warning, even for an unregistered one); a rejection by a title or icon
    check, and an acceptance, come after the category warning if there is
    one.  Settings without a category raise no warning, and are returned,
    without a category, when they pass the checks. *)
Theorem category_step_position blockType select :
  reachesValidation blockType = true →
  match Spec.validate isValidIcon normalizeIconObject
          (liveSettings blockType) with
  | Some r =>
      trace (processBlockType blockType select)
      = filterTrace blockType
        ++ (if beforeCategory r then []
            else categoryWarning (prop blockType "name") select
                   (liveSettings blockType))
        ++ [ConsoleError (diagnostic (prop blockType "name") r)]
  | None =>
      trace (processBlockType blockType select)
      = filterTrace blockType
        ++ categoryWarning (prop blockType "name") select
             (liveSettings blockType)
      ∧ outcome (processBlockType blockType select)
        = Normal (accepted select (filteredSettings blockType))
  end
  ∧ (hasProp (liveSettings blockType) "category" = false →
     warnings (trace (processBlockType blockType select)) = []
     ∧ hasProp (accepted select (filteredSettings blockType)) "category"
       = false).
Proof.
  intros Hr. rewrite processBlockType_run by done. split.
  - by destruct (Spec.validate _ _ _).
  - intros Hcat.
    pose proof (canonicalCategory_absent _ Hcat) as Hc.
    assert (Hinv : invalidCategory select (liveSettings blockType) = false)
      by (unfold invalidCategory; by rewrite Hc, Hcat).
    split.
    + destruct (Spec.validate _ _ _) as [r|]; cbn [trace];
        rewrite !warnings_app, warnings_filterTrace, ?warnings_categoryWarning,
          ?Hinv; [|done].
      destruct (beforeCategory r); [done|].
      by rewrite warnings_categoryWarning, Hinv.
    + by rewrite hasProp_accepted_category, invalidCategory_filteredSettings,
        Hinv, hasProp_canonicalCategory_filteredSettings, Hc.
Qed.

Lemma ownProperties_mergeDeprecation blockType deprecation k :
  ownProperties (mergeDeprecation blockType deprecation) !! k
  = match ownProperties deprecation !! k with
    | Some v => Some v
    | None =>
        if decide (k ∈ DEPRECATED_ENTRY_KEYS) then None
        else ownProperties blockType !! k
    end.
Proof.
  unfold mergeDeprecation, spread2, omit. cbn [ownProperties].
  rewrite lookup_union.
  destruct (ownProperties deprecation !! k) as [v|]; [by apply union_Some_l|].
  rewrite (left_id None _). rewrite map_lookup_filter.
  destruct (ownProperties blockType !! k) as [v|]; cbn; [|by case_decide].
  case_decide; by case_guard.
Qed.

Lemma lookup_filteredDeprecation blockType deprecation k :
  hasProp (filteredDeprecation blockType deprecation) k = true →
  k ∈ DEPRECATED_ENTRY_KEYS
  ∧ is_Some (ownProperties
               (applyFilters HOOK (mergeDeprecation blockType deprecation)
                  (prop blockType "name") deprecation) !! k).
Proof.
  unfold hasProp, filteredDeprecation.
  intros [v Hv]%bool_decide_eq_true.
  apply map_lookup_filter_Some in Hv as [Hl Hin]. split; [done|by exists v].
Qed.

Lemma filterCalls_deprecationCalls blockType ds :
  filterCalls (deprecationCall blockType <$> ds)
  = (λ d, (HOOK, mergeDeprecation blockType d, prop blockType "name", d))
    <$> ds.
Proof. induction ds as [|d ds IH]; [done|]. cbn. by f_equal. Qed.

(** C7: the [deprecated] sequence of returned settings is the filtered
    sequence mapped entry by entry: same length, same order; an entry has
    only keys of [DEPRECATED_ENTRY_KEYS]; with [supports] among these keys
    the merge base of a deprecation that does not declare [supports] has
    none, and its entry has none unless a filter adds it. *)
Theorem deprecated_entries_filtered blockType select ds :
  reachesValidation blockType = true →
  Spec.validate isValidIcon normalizeIconObject (liveSettings blockType)
  = None →
  prop (liveSettings blockType) "deprecated" = VArray ds →
  outcome (processBlockType blockType select)
  = Normal (accepted select (filteredSettings blockType))
  ∧ prop (accepted select (filteredSettings blockType)) "deprecated"
    = VArray (filteredDeprecation blockType <$> ds)
  ∧ length (filteredDeprecation blockType <$> ds) = length ds
  ∧ (∀ i d, ds !! i = Some d →
       (filteredDeprecation blockType <$> ds) !! i
       = Some (filteredDeprecation blockType d))
  ∧ (∀ d k, hasProp (filteredDeprecation blockType d) k = true →
       k ∈ DEPRECATED_ENTRY_KEYS)
  ∧ (∀ d, "supports" ∈ DEPRECATED_ENTRY_KEYS →
       ownProperties d !! "supports" = None →
       hasProp (mergeDeprecation blockType d) "supports" = false)
  ∧ (∀ d, ownProperties d !! "supports" = None →
       (hasProp (mergeDeprecation blockType d) "supports" = false →
        ownProperties
          (applyFilters HOOK (mergeDeprecation blockType d)
             (prop blockType "name") d) !! "supports" = None) →
       hasProp (filteredDeprecation blockType d) "supports" = false).
Proof.
  intros Hr Hv Hds. rewrite processBlockType_run, Hv by done.
  assert (Hmerge : ∀ d, "supports" ∈ DEPRECATED_ENTRY_KEYS →
            ownProperties d !! "supports" = None →
            hasProp (mergeDeprecation blockType d) "supports" = false).
  { intros d Hin Hd. apply bool_decide_eq_false. intros [v Hl].
    change (ownProperties (mergeDeprecation blockType d) !! "supports" = Some v)
      in Hl.
    rewrite ownProperties_mergeDeprecation, Hd in Hl. by case_decide. }
  repeat split; try done.
  - unfold accepted.
    rewrite prop_assign_ne, prop_normalizedCategory_ne by done.
    unfold filteredSettings. rewrite Hds.
    pose proof (validate_None_plain _ Hv) as Hp.
    rewrite prop_assign_eq
      by (by apply plain_isObjectType || by apply plain_defined).
    by destruct (liveSettings blockType) as [| | | | | | |[]].
  - apply length_fmap.
  - intros i d Hi. by rewrite list_lookup_fmap, Hi.
  - intros d k Hk. by apply lookup_filteredDeprecation in Hk as [? _].
  - intros d Hd Hfilter.
    destruct (hasProp (filteredDeprecation blockType d) "supports") eqn:Hk;
      [|done].
    apply lookup_filteredDeprecation in Hk as [Hin [v Hl]].
    rewrite Hfilter in Hl; [done|]. by apply Hmerge.
Qed.

(** C10: the value handed to the filter chain for a deprecation is the
    deprecation merged over the block type as it was submitted, without
    the keys of [DEPRECATED_ENTRY_KEYS]; the filtered live settings do not
    enter it. *)
Theorem deprecation_merge_base blockType select ds :
  reachesValidation blockType = true →
  prop (liveSettings blockType) "deprecated" = VArray ds →
  filterCalls (trace (processBlockType blockType select))
  = (HOOK, VObject Plain (ownProperties blockType), prop blockType "name",
     VNull)
    :: ((λ d, (HOOK, mergeDeprecation blockType d, prop blockType "name", d))
        <$> ds)
  ∧ ∀ d k,
      ownProperties (mergeDeprecation blockType d) !! k
      = match ownProperties d !! k with
        | Some v => Some v
        | None =>
            if decide (k ∈ DEPRECATED_ENTRY_KEYS) then None
            else ownProperties blockType !! k
        end.
Proof.
  intros Hr Hds. split; [|apply ownProperties_mergeDeprecation].
  assert (Hf : filterCalls (filterTrace blockType)
    = (HOOK, VObject Plain (ownProperties blockType), prop blockType "name",
       VNull)
      :: ((λ d, (HOOK, mergeDeprecation blockType d, prop blockType "name", d))
          <$> ds)).
  { unfold filterTrace. rewrite Hds. cbn [filterCalls omap list_omap].
    f_equal.
    fold (filterCalls (descriptionNotice (liveSettings blockType)
                       ++ (deprecationCall blockType <$> ds))).
    by rewrite filterCalls_app, filterCalls_descriptionNotice,
      filterCalls_deprecationCalls. }
  rewrite processBlockType_run by done.
  destruct (Spec.validate _ _ _) as [r|]; cbn [trace];
    rewrite !filterCalls_app, Hf, ?filterCalls_categoryWarning, ?app_nil_r;
    [|done].
  destruct (beforeCategory r);
    by rewrite ?filterCalls_categoryWarning, ?app_nil_r.
Qed.

Lemma reapply_reduce select (all entries : list (string * value)) acc :
  (∀ kv, kv ∈ entries → member all kv.1 = kv.2) →
  Forall (λ kv, ∃ r, outcome (processBlockType kv.2 select) = Normal r)
    entries →
  reduceM
    (λ accumulator blockName,
       result ← processBlockType (member all blockName) select;
       if toBoolean result
       then mret (accumulator ++ [result])
       else mret accumulator)
    (entries.*1) acc
  = Run (concat ((λ kv, trace (processBlockType kv.2 select)) <$> entries))
        (Normal (acc ++ omap (λ kv, reprocessed select kv.2) entries)).
Proof.
  revert acc. induction entries as [|[k v] entries IH]; intros acc Hm Hn.
  { cbn. by rewrite app_nil_r. }
  apply Forall_cons in Hn as [[r Hr] Hn].
  cbn [fmap list_fmap fst snd reduceM concat omap list_omap] in *.
  assert (Hk : member all k = v) by (apply (Hm (k, v)); left).
  rewrite Hk.
  assert (Hv : reprocessed select v = if toBoolean r then Some r else None)
    by (unfold reprocessed; by rewrite Hr).
  rewrite Hv.
  destruct (processBlockType v select) as [t o] eqn:HP.
  cbn [outcome] in Hr. subst o. mstep.
  destruct (toBoolean r); mstep;
    rewrite IH by (try done; intros; apply Hm; by right);
    cbn [trace outcome]; by rewrite ?app_nil_r, <- ?app_assoc.
Qed.

(** C9 (amended): when no pass throws,
    [__experimentalReapplyBlockTypeFilters] runs
    [processBlockType] once on each unprocessed block type, in the order
    of [Object.keys]; it then dispatches one [ADD_BLOCK_TYPES] with the
    accepted results in that order, and nothing else; and it dispatches
    nothing when no result is accepted. *)
Theorem reapply_batches_accepted select :
  NoDup (__experimentalGetUnprocessedBlockTypes select).*1 →
  Forall (λ kv, ∃ r, outcome (processBlockType kv.2 select) = Normal r)
    (__experimentalGetUnprocessedBlockTypes select) →
  outcome (__experimentalReapplyBlockTypeFilters select) = Normal ()
  ∧ trace (__experimentalReapplyBlockTypeFilters select)
    = concat ((λ kv, trace (processBlockType kv.2 select))
              <$> __experimentalGetUnprocessedBlockTypes select)
      ++ match omap (λ kv, reprocessed select kv.2)
                 (__experimentalGetUnprocessedBlockTypes select) with
         | [] => []
         | batch => [Dispatched (ADD_BLOCK_TYPES batch)]
         end
  ∧ dispatched (trace (__experimentalReapplyBlockTypeFilters select))
    = match omap (λ kv, reprocessed select kv.2)
              (__experimentalGetUnprocessedBlockTypes select) with
      | [] => []
      | batch => [ADD_BLOCK_TYPES batch]
      end.
Proof.
  intros Hnd Hn.
  assert (Hrun : __experimentalReapplyBlockTypeFilters select
    = Run (concat ((λ kv, trace (processBlockType kv.2 select))
                   <$> __experimentalGetUnprocessedBlockTypes select)
           ++ match omap (λ kv, reprocessed select kv.2)
                      (__experimentalGetUnprocessedBlockTypes select) with
              | [] => []
              | batch => [Dispatched (ADD_BLOCK_TYPES batch)]
              end)
          (Normal ())).
  { unfold __experimentalReapplyBlockTypeFilters.
    rewrite reapply_reduce; [|..|done].
    - mstep. destruct (omap _ _); reflexivity.
    - intros [k v] Hin. unfold member.
      by rewrite (elem_of_list_to_map_1 _ k v). }
  rewrite Hrun. cbn [trace outcome]. split; [done|]. split; [done|].
  rewrite dispatched_app.
  assert (Hq : dispatched (concat ((λ kv, trace (processBlockType kv.2 select))
                 <$> __experimentalGetUnprocessedBlockTypes select)) = []).
  { clear. induction (__experimentalGetUnprocessedBlockTypes select)
      as [|kv l IH]; [done|].
    cbn [fmap list_fmap concat]. rewrite dispatched_app.
    by rewrite processBlockType_quiet, IH. }
  rewrite Hq. by destruct (omap _ _).
Qed.

(** ** Further properties of [processBlockType] *)

(** A truthy result is the settings of line 159, from a run that reached
    the checks and passed them. *)
Lemma processBlockType_accepted blockType select result :
  outcome (processBlockType blockType select) = Normal result →
  toBoolean result = true →
  reachesValidation blockType = true
  ∧ Spec.validate isValidIcon normalizeIconObject (liveSettings blockType)
    = None
  ∧ result = accepted select (filteredSettings blockType).
Proof.
  intros Ho Ht. destruct (reachesValidation blockType) eqn:Hr.
  - rewrite processBlockType_run in Ho by done.
    destruct (Spec.validate _ _ _); cbn [outcome] in Ho.
    + injection Ho as <-. done.
    + by injection Ho as <-.
  - destruct (processBlockType_throws blockType select Hr) as [e He].
    congruence.
Qed.

Lemma prop_filteredSettings_ne blockType k :
  k ≠ "deprecated" →
  prop (filteredSettings blockType) k = prop (liveSettings blockType) k.
Proof.
  intros. unfold filteredSettings.
  destruct (prop (liveSettings blockType) "deprecated"); try done.
  by apply prop_assign_ne.
Qed.

Lemma hasProp_filteredSettings_ne blockType k :
  k ≠ "deprecated" →
  hasProp (filteredSettings blockType) k = hasProp (liveSettings blockType) k.
Proof.
  intros. unfold filteredSettings.
  destruct (prop (liveSettings blockType) "deprecated"); try done.
  by apply hasProp_assign_ne.
Qed.

Lemma notices_app l1 l2 : notices (l1 ++ l2) = notices l1 ++ notices l2.
Proof. apply omap_app. Qed.

Lemma notices_deprecationCalls blockType ds :
  notices (deprecationCall blockType <$> ds) = [].
Proof. by induction ds. Qed.

Lemma notices_categoryWarning name select settings :
  notices (categoryWarning name select settings) = [].
Proof. unfold categoryWarning. by destruct (invalidCategory _ _). Qed.

(** X1: in a run that reaches the checks, [deprecated] is called once,
    for non-string block descriptions since 6.2, when the filtered
    description is truthy and not a string, and is not called otherwise;
    whatever the description, returned settings carry it unchanged. *)
Theorem description_notice blockType select :
  reachesValidation blockType = true →
  notices (trace (processBlockType blockType select))
  = (if toBoolean (prop (liveSettings blockType) "description")
        && negb (bool_decide
                   (typeof (prop (liveSettings blockType) "description")
                    = "string"))
     then [("Declaring non-string block descriptions", "6.2")]
     else [])
  ∧ ∀ result,
      outcome (processBlockType blockType select) = Normal result →
      toBoolean result = true →
      prop result "description"
      = prop (liveSettings blockType) "description".
Proof.
  intros Hr. split.
  - assert (Hf : notices (filterTrace blockType)
      = if toBoolean (prop (liveSettings blockType) "description")
           && negb (bool_decide
                      (typeof (prop (liveSettings blockType) "description")
                       = "string"))
        then [("Declaring non-string block descriptions", "6.2")]
        else []).
    { unfold filterTrace. cbn [notices omap list_omap].
      fold (notices (descriptionNotice (liveSettings blockType) ++
        match prop (liveSettings blockType) "deprecated" with
        | VArray ds => deprecationCall blockType <$> ds | _ => [] end)).
      rewrite notices_app. unfold descriptionNotice.
      assert (notices match prop (liveSettings blockType) "deprecated" with
                      | VArray ds => deprecationCall blockType <$> ds
                      | _ => []
                      end = []) as ->.
      { destruct (prop _ "deprecated"); try done.
        apply notices_deprecationCalls. }
      rewrite app_nil_r. by destruct (_ && _). }
    rewrite processBlockType_run by done.
    destruct (Spec.validate _ _ _) as [r|]; cbn [trace];
      rewrite !notices_app, Hf, ?notices_categoryWarning, ?app_nil_r;
      [|done].
    destruct (beforeCategory r);
      by rewrite ?notices_categoryWarning, ?app_nil_r.
  - intros result Ho Ht.
    destruct (processBlockType_accepted _ _ _ Ho Ht) as (_ & _ & ->).
    unfold accepted.
    by rewrite prop_assign_ne, prop_normalizedCategory_ne,
      prop_filteredSettings_ne.
Qed.

(** Membership in a list of literals. *)
Ltac decide_elem := apply (bool_decide_unpack _); by vm_compute.

Lemma accepted_fields_kept blockType select k :
  k ∉ ["deprecated"; "category"; "icon"] →
  hasProp (accepted select (filteredSettings blockType)) k
  = hasProp (liveSettings blockType) k
  ∧ prop (accepted select (filteredSettings blockType)) k
    = prop (liveSettings blockType) k.
Proof.
  intros Hk.
  assert (k ≠ "deprecated" ∧ k ≠ "category" ∧ k ≠ "icon") as (? & ? & ?)
    by (repeat split; intros ->; apply Hk; decide_elem).
  unfold accepted.
  rewrite hasProp_assign_ne, prop_assign_ne by done.
  rewrite hasProp_normalizedCategory_ne, prop_normalizedCategory_ne by done.
  by rewrite hasProp_filteredSettings_ne, prop_filteredSettings_ne.
Qed.

(** X2: returned settings keep every field of the filtered settings
    other than [deprecated], [category] and [icon] as the filter chain
    left it, fields the module does not know included: same presence, same
    value. *)
Theorem other_fields_kept blockType select result k :
  outcome (processBlockType blockType select) = Normal result →
  toBoolean result = true →
  k ∉ ["deprecated"; "category"; "icon"] →
  hasProp result k = hasProp (liveSettings blockType) k
  ∧ prop result k = prop (liveSettings blockType) k.
Proof.
  intros Ho Ht Hk.
  destruct (processBlockType_accepted _ _ _ Ho Ht) as (_ & _ & ->).
  by apply accepted_fields_kept.
Qed.

Lemma knownCategory_string select category :
  knownCategory select category = true →
  ∃ s, category = VString s ∧ s ∈ slug <$> getCategories select.
Proof.
  unfold knownCategory. intros (c & Hin & Heq)%existsb_exists.
  destruct category; try done. cbn in Heq.
  apply bool_decide_eq_true in Heq as ->.
  eexists. split; [done|]. apply list_elem_of_fmap. exists c.
  by rewrite list_elem_of_In.
Qed.

Lemma canonicalCategory_not_legacy settings :
  isPlainObject settings = true →
  LEGACY_CATEGORY_MAPPING
    !! toPropertyKey (prop (canonicalCategory settings) "category") = None.
Proof.
  intros Hp. unfold canonicalCategory.
  destruct (LEGACY_CATEGORY_MAPPING !! toPropertyKey (prop settings "category"))
    as [latest|] eqn:Hl; [|done].
  rewrite prop_assign_eq
    by (by apply plain_isObjectType || by apply plain_defined).
  destruct settings as [| | | | | | |[] p]; try done.
  unfold LEGACY_CATEGORY_MAPPING in Hl.
  repeat (apply lookup_insert_Some in Hl as [[_ <-]|[_ Hl]]; [done|]).
  by apply lookup_singleton_Some in Hl as [_ <-].
Qed.

(** X3: returned settings either have no [category] or have one that is a
    string equal to the slug of a registered category; and its property
    key is never one of the legacy slugs [common], [formatting],
    [layout]. *)
Theorem returned_category_registered blockType select result :
  outcome (processBlockType blockType select) = Normal result →
  toBoolean result = true →
  hasProp result "category" = false
  ∨ (∃ s, prop result "category" = VString s
          ∧ s ∈ slug <$> getCategories select)
    ∧ LEGACY_CATEGORY_MAPPING !! toPropertyKey (prop result "category")
      = None.
Proof.
  intros Ho Ht.
  destruct (processBlockType_accepted _ _ _ Ho Ht) as (_ & Hv & ->).
  pose proof (validate_None_plain _ Hv) as Hp.
  rewrite <- isPlainObject_filteredSettings in Hp.
  rewrite hasProp_accepted_category.
  set (fs := filteredSettings blockType) in *.
  destruct (invalidCategory select fs) eqn:Hi; [by left|].
  cbn [negb andb].
  destruct (hasProp (canonicalCategory fs) "category") eqn:Hh; [|by left].
  right. rewrite prop_accepted_category by done.
  unfold invalidCategory in Hi. rewrite Hh in Hi. cbn [andb] in Hi.
  apply negb_false_iff in Hi. split.
  - by apply knownCategory_string.
  - by apply canonicalCategory_not_legacy.
Qed.

(** X4: returned settings are well formed: a plain object whose [save] is
    a function, whose [edit], if present, is a function, whose [title] is a
    string other than the empty one, and whose [icon] is the normalized
    icon of the filtered settings, with a [src] that [isValidIcon]
    accepts. *)
Theorem returned_settings_well_formed blockType select result :
  outcome (processBlockType blockType select) = Normal result →
  toBoolean result = true →
  isPlainObject result = true
  ∧ isFunction (prop result "save") = true
  ∧ (hasProp result "edit" = true → isFunction (prop result "edit") = true)
  ∧ (∃ s, prop result "title" = VString s ∧ s ≠ "")
  ∧ prop result "icon"
    = iconObject (normalizeIconObject (prop (liveSettings blockType) "icon"))
  ∧ isValidIcon (prop (prop result "icon") "src") = true.
Proof.
  intros Ho Ht.
  destruct (processBlockType_accepted _ _ _ Ho Ht) as (_ & Hv & ->).
  destruct (accepted_fields_kept blockType select "save") as [_ ->];
    [decide_elem|].
  destruct (accepted_fields_kept blockType select "edit") as [-> ->];
    [decide_elem|].
  destruct (accepted_fields_kept blockType select "title") as [_ ->];
    [decide_elem|].
  assert (Hicon : prop (accepted select (filteredSettings blockType)) "icon"
    = iconObject (normalizeIconObject (prop (liveSettings blockType) "icon"))).
  { unfold accepted. rewrite prop_filteredSettings_ne by done.
    rewrite prop_assign_eq.
    - pose proof (isPlainObject_normalizedCategory select
                    (filteredSettings blockType)) as Hn.
      rewrite isPlainObject_filteredSettings, (validate_None_plain _ Hv) in Hn.
      by destruct (normalizedCategory _ _) as [| | | | | | |[]].
    - apply plain_isObjectType.
      by rewrite isPlainObject_normalizedCategory,
        isPlainObject_filteredSettings, (validate_None_plain _ Hv).
    - apply plain_defined.
      by rewrite isPlainObject_normalizedCategory,
        isPlainObject_filteredSettings, (validate_None_plain _ Hv). }
  rewrite Hicon, prop_iconObject_src.
  rewrite isPlainObject_accepted, isPlainObject_filteredSettings.
  unfold Spec.validate in Hv.
  destruct (isPlainObject (liveSettings blockType)); [|done].
  destruct (isFunction (prop (liveSettings blockType) "save")); [|done].
  cbn [negb] in Hv.
  destruct (hasProp (liveSettings blockType) "edit"),
    (isFunction (prop (liveSettings blockType) "edit")); try done;
    cbn [negb andb] in Hv.
  all: destruct (hasProp (liveSettings blockType) "title"); [|done];
    cbn [negb orb] in Hv.
  all: destruct (prop (liveSettings blockType) "title") as [| | | |s| | |];
    try done; cbn [strictEqualsString] in Hv.
  all: destruct (bool_decide (s = "")) eqn:Hs; [done|];
    apply bool_decide_eq_false in Hs; cbn in Hv.
  all: destruct (isValidIcon _); [|done].
  all: repeat split; try done; by exists s.
Qed.

(** X5: the category step is idempotent: on the settings it returns, a
    second pass changes nothing and warns of nothing. *)
Theorem normalizeCategory_idempotent name settings select :
  isPlainObject settings = true →
  ∃ settings',
    outcome (normalizeCategory name settings select) = Normal settings'
    ∧ normalizeCategory name settings' select = Run [] (Normal settings').
Proof.
  intros Hp. exists (normalizedCategory select settings).
  rewrite normalizeCategory_run by done. split; [done|].
  assert (Hc : isPlainObject (canonicalCategory settings) = true)
    by by rewrite canonicalCategory_plain.
  rewrite normalizeCategory_run
    by by rewrite isPlainObject_normalizedCategory.
  assert (Hi : invalidCategory select (normalizedCategory select settings)
               = false
             ∧ canonicalCategory (normalizedCategory select settings)
               = normalizedCategory select settings).
  { unfold normalizedCategory.
    destruct (invalidCategory select settings) eqn:Hinv.
    - pose proof (hasProp_remove_eq (canonicalCategory settings) "category")
        as Hh.
      pose proof (canonicalCategory_absent _ Hh) as Hcc.
      split; [|done]. unfold invalidCategory. by rewrite Hcc, Hh.
    - assert (Hcc : canonicalCategory (canonicalCategory settings)
                    = canonicalCategory settings).
      { unfold canonicalCategory at 1.
        by rewrite canonicalCategory_not_legacy. }
      split; [|done]. unfold invalidCategory in *. by rewrite Hcc. }
  destruct Hi as [Hi Hcc].
  unfold categoryWarning. rewrite Hi. f_equal. f_equal.
  unfold normalizedCategory at 1. by rewrite Hi, Hcc.
Qed.

Lemma mute_bind {A B} (m : M A) (f : A → M B) :
  mute m → (∀ a, mute (f a)) → mute (m ≫= f).
Proof.
  unfold mute. intros [He Hw] Hf.
  rewrite bind_trace, errors_app, warnings_app, He, Hw.
  destruct (outcome m); [apply Hf|done].
Qed.

Lemma mute_mapM {A B} (f : A → M B) l : (∀ x, mute (f x)) → mute (mapM f l).
Proof.
  intros Hf. induction l as [|x l IH]; [done|]. cbn [mapM].
  apply mute_bind; [done|]. intros y. apply mute_bind; [done|]. by intros ys.
Qed.

Lemma filterDeprecated_mute blockType name settings :
  mute (filterDeprecated blockType name settings).
Proof.
  unfold filterDeprecated, filterDeprecation, callFilters, callMap,
    Object_entries, get, set.
  repeat first
    [ apply mute_bind; [|intros ?]
    | apply mute_mapM; intros ?
    | done
    | case_match ].
Qed.

Lemma filterDeprecated_throws blockType :
  isNullish (liveSettings blockType) = false →
  filtersDeprecated blockType (liveSettings blockType) = false →
  ∃ e, outcome (filterDeprecated blockType (prop blockType "name")
                  (liveSettings blockType)) = Throw e.
Proof.
  intros Hs Hr. unfold filterDeprecated, filtersDeprecated in *.
  rewrite !get_defined by done. mstep.
  destruct (prop (liveSettings blockType) "deprecated")
    as [| | |n|s|f|ds|c p];
    cbn [toBoolean negb] in *; try done;
    try (apply negb_false_iff in Hr; rewrite Hr); try (cbn; by eauto).
  rewrite bind_outcome. unfold callMap. rewrite bind_outcome.
  destruct (mapM_throws (filterDeprecation blockType (prop blockType "name"))
              ds) as [e ->]; [|eauto].
  clear -Hr. induction ds as [|d ds IH]; [done|].
  cbn [forallb] in Hr. apply andb_false_iff in Hr as [Hd|Hds].
  - left. apply filterDeprecation_throws. by apply negb_false_iff.
  - right. by apply IH.
Qed.

Lemma processBlockType_throws_mute blockType select :
  reachesValidation blockType = false →
  mute (processBlockType blockType select).
Proof.
  unfold reachesValidation, processBlockType. intros Hr.
  destruct (isNullish blockType) eqn:Hb.
  { unfold get. by rewrite Hb. }
  rewrite get_defined by done. mstep. rewrite callFilters_run. mstep.
  fold (liveSettings blockType).
  destruct (isNullish (liveSettings blockType)) eqn:Hs.
  { unfold checkDescription, andM, get. by rewrite Hs. }
  rewrite checkDescription_run by done. mstep.
  cbn [negb andb] in Hr.
  destruct (filterDeprecated_throws blockType Hs Hr) as [e He].
  destruct (filterDeprecated_mute blockType (prop blockType "name")
              (liveSettings blockType)) as [Hme Hmw].
  unfold mute. cbn [trace]. rewrite bind_trace, He, app_nil_r.
  cbn [app errors warnings omap list_omap].
  fold (errors (descriptionNotice (liveSettings blockType) ++
          trace (filterDeprecated blockType (prop blockType "name")
                   (liveSettings blockType)))).
  fold (warnings (descriptionNotice (liveSettings blockType) ++
          trace (filterDeprecated blockType (prop blockType "name")
                   (liveSettings blockType)))).
  by rewrite errors_app, warnings_app, errors_descriptionNotice,
    warnings_descriptionNotice, Hme, Hmw.
Qed.


(** ** Further properties of the registration thunks *)

Lemma quiet_reduceM {A B} (f : B → A → M B) l acc :
  (∀ acc x, quiet (f acc x)) → quiet (reduceM f l acc).
Proof.
  intros Hf. revert acc. induction l as [|x l IH]; intros acc; [done|].
  cbn [reduceM]. by apply quiet_bind.
Qed.

Lemma reapply_reduce_throws select (all entries : list (string * value)) acc :
  (∀ kv, kv ∈ entries → member all kv.1 = kv.2) →
  Exists (λ kv, ∃ e, outcome (processBlockType kv.2 select) = Throw e)
    entries →
  ∃ e, outcome
         (reduceM
            (λ accumulator blockName,
               result ← processBlockType (member all blockName) select;
               if toBoolean result
               then mret (accumulator ++ [result])
               else mret accumulator)
            (entries.*1) acc) = Throw e.
Proof.
  revert acc. induction entries as [|[k v] entries IH]; intros acc Hm Hex.
  { by apply Exists_nil in Hex. }
  assert (Hk : member all k = v) by (apply (Hm (k, v)); left).
  cbn [fmap list_fmap fst reduceM]. rewrite Hk, !bind_outcome.
  destruct (outcome (processBlockType v select)) as [r|e] eqn:Hr; [|eauto].
  apply Exists_cons in Hex as [[e He]|Hex]; [cbn in He; congruence|].
  destruct (toBoolean r); cbn [outcome mret M_mret M_ret];
    apply IH; try done; intros; apply Hm; by right.
Qed.

(** X7: when the pass over one unprocessed block type throws,
    [__experimentalReapplyBlockTypeFilters] throws and dispatches nothing:
    the results accepted before it are not added. *)
Theorem reapply_throws_without_dispatch select :
  NoDup (__experimentalGetUnprocessedBlockTypes select).*1 →
  Exists (λ kv, ∃ e, outcome (processBlockType kv.2 select) = Throw e)
    (__experimentalGetUnprocessedBlockTypes select) →
  (∃ e, outcome (__experimentalReapplyBlockTypeFilters select) = Throw e)
  ∧ dispatched (trace (__experimentalReapplyBlockTypeFilters select)) = [].
Proof.
  intros Hnd Hex. unfold __experimentalReapplyBlockTypeFilters.
  destruct (reapply_reduce_throws select
              (__experimentalGetUnprocessedBlockTypes select)
              (__experimentalGetUnprocessedBlockTypes select) [])
    as [e He]; [|done|].
  { intros [k v] Hin. unfold member.
    by rewrite (elem_of_list_to_map_1 _ k v). }
  rewrite bind_outcome, bind_trace, He, app_nil_r. split; [eauto|].
  apply quiet_reduceM. intros acc x.
  apply quiet_bind; [apply processBlockType_quiet|].
  intros r. by destruct (toBoolean r).
Qed.

Lemma reprocessed_plain select blockType result :
  reprocessed select blockType = Some result → isPlainObject result = true.
Proof.
  unfold reprocessed.
  destruct (outcome (processBlockType blockType select)) as [r|] eqn:Ho;
    [|done].
  destruct (toBoolean r) eqn:Ht; [|done]. intros [= <-].
  destruct (processBlockType_accepted _ _ _ Ho Ht) as (_ & Hv & ->).
  rewrite isPlainObject_accepted, isPlainObject_filteredSettings.
  by apply validate_None_plain.
Qed.

Lemma reapply_dispatched select :
  NoDup (__experimentalGetUnprocessedBlockTypes select).*1 →
  Forall (λ kv, ∃ r, outcome (processBlockType kv.2 select) = Normal r)
    (__experimentalGetUnprocessedBlockTypes select) →
  dispatched (trace (__experimentalReapplyBlockTypeFilters select))
  = match omap (λ kv, reprocessed select kv.2)
            (__experimentalGetUnprocessedBlockTypes select) with
    | [] => []
    | batch => [ADD_BLOCK_TYPES batch]
    end.
Proof.
  intros Hnd Hn. unfold __experimentalReapplyBlockTypeFilters.
  rewrite reapply_reduce; [|..|done].
  - mstep. rewrite dispatched_app.
    assert (Hq : dispatched
                   (concat ((λ kv, trace (processBlockType kv.2 select))
                            <$> __experimentalGetUnprocessedBlockTypes select))
                 = []).
    { clear. induction (__experimentalGetUnprocessedBlockTypes select)
        as [|kv l IH]; [done|].
      cbn [fmap list_fmap concat]. rewrite dispatched_app.
      by rewrite processBlockType_quiet, IH. }
    rewrite Hq. destruct (omap _ _); reflexivity.
  - intros [k v] Hin. unfold member.
    by rewrite (elem_of_list_to_map_1 _ k v).
Qed.

(** X8: when no pass throws, reapplying the filters adds exactly the block
    types that registering each unprocessed block type again would add, in
    the order of the log. *)
Theorem reapply_adds_what_registering_adds select :
  NoDup (__experimentalGetUnprocessedBlockTypes select).*1 →
  Forall (λ kv, ∃ r, outcome (processBlockType kv.2 select) = Normal r)
    (__experimentalGetUnprocessedBlockTypes select) →
  addedBlockTypes
    (dispatched (trace (__experimentalReapplyBlockTypeFilters select)))
  = concat
      ((λ kv, addedBlockTypes
                (dispatched
                   (trace (__experimentalRegisterBlockType kv.2 select))))
       <$> __experimentalGetUnprocessedBlockTypes select).
Proof.
  intros Hnd Hn. rewrite reapply_dispatched by done.
  transitivity (omap (λ kv, reprocessed select kv.2)
                  (__experimentalGetUnprocessedBlockTypes select)).
  { destruct (omap _ _); [done|]. cbn. by rewrite app_nil_r. }
  clear. induction (__experimentalGetUnprocessedBlockTypes select)
    as [|[k v] l IH]; [done|].
  cbn [omap list_omap fmap list_fmap concat snd].
  rewrite registerBlockType_dispatched.
  destruct (reprocessed select v) as [r|] eqn:Hr.
  - pose proof (reprocessed_plain _ _ _ Hr) as Hp.
    destruct r as [| | | | | | |[] p]; try done.
    assert (addedBlockTypes
              [ADD_UNPROCESSED_BLOCK_TYPE v;
               addBlockTypes (VObject Plain p)] = [VObject Plain p]) as ->
      by reflexivity.
    by rewrite IH.
  - assert (addedBlockTypes [ADD_UNPROCESSED_BLOCK_TYPE v] = []) as ->
      by reflexivity.
    by rewrite IH.
Qed.

(** ** Further properties of the checks *)

Lemma validate_category_irrelevant settings settings' :
  isPlainObject settings' = isPlainObject settings →
  (∀ k, k ≠ "category" →
        hasProp settings' k = hasProp settings k
        ∧ prop settings' k = prop settings k) →
  Spec.validate isValidIcon normalizeIconObject settings'
  = Spec.validate isValidIcon normalizeIconObject settings.
Proof.
  intros Hp Hk. unfold Spec.validate. rewrite Hp.
  destruct (Hk "save") as [_ ->]; [done|].
  destruct (Hk "edit") as [-> ->]; [done|].
  destruct (Hk "title") as [-> ->]; [done|].
  by destruct (Hk "icon") as [_ ->].
Qed.

(** X9: the category decides nothing in the checks of lines 106-159:
    giving the settings another category, or none, and registering other
    categories, changes neither the errors emitted nor whether
    [undefined] is returned. *)
Theorem category_never_decides name settings settings' select select' c :
  settings' = assign settings "category" c
  ∨ settings' = remove settings "category" →
  errors (trace (validateSettings name settings' select'))
  = errors (trace (validateSettings name settings select))
  ∧ (outcome (validateSettings name settings' select') = Normal VUndefined
     ↔ outcome (validateSettings name settings select) = Normal VUndefined).
Proof.
  intros Hs.
  assert (Hv : Spec.validate isValidIcon normalizeIconObject settings'
               = Spec.validate isValidIcon normalizeIconObject settings).
  { apply validate_category_irrelevant; destruct Hs as [-> | ->].
    - apply isPlainObject_assign.
    - apply isPlainObject_remove.
    - intros k Hk. by rewrite hasProp_assign_ne, prop_assign_ne.
    - intros k Hk. by rewrite hasProp_remove_ne, prop_remove_ne. }
  rewrite !validateSettings_run, Hv.
  destruct (Spec.validate _ _ settings) as [r|] eqn:Hr; cbn [trace outcome].
  - split; [|done]. rewrite !errors_app.
    by destruct (beforeCategory r); rewrite ?errors_categoryWarning.
  - rewrite !errors_categoryWarning. split; [done|].
    pose proof (validate_None_plain _ Hr) as Hp.
    pose proof (validate_None_plain _ Hv) as Hp'.
    rewrite <- (isPlainObject_accepted select) in Hp.
    rewrite <- (isPlainObject_accepted select') in Hp'.
    split; intros [= Heq]; [rewrite Heq in Hp'|rewrite Heq in Hp]; done.
Qed.

(** ** Further properties of the deprecations *)

(** X10: when the filter chain returns an object for a deprecation, its
    entry is a plain object that has, for each key of
    [DEPRECATED_ENTRY_KEYS], what the filter chain returned under that
    key, and nothing under any other key. *)
Theorem deprecation_entry_allowlisted blockType deprecation :
  isNullish (applyFilters HOOK (mergeDeprecation blockType deprecation)
               (prop blockType "name") deprecation) = false →
  ∃ entry,
    outcome (filterDeprecation blockType (prop blockType "name") deprecation)
    = Normal entry
    ∧ isPlainObject entry = true
    ∧ ∀ k, ownProperties entry !! k
           = if decide (k ∈ DEPRECATED_ENTRY_KEYS)
             then ownProperties
                    (applyFilters HOOK
                       (mergeDeprecation blockType deprecation)
                       (prop blockType "name") deprecation) !! k
             else None.
Proof.
  intros Hd. rewrite filterDeprecation_run by done.
  eexists. split; [done|]. split; [done|].
  intros k. unfold filteredDeprecation. cbn [ownProperties].
  rewrite map_lookup_filter.
  destruct (ownProperties _ !! k) as [v|]; cbn; [|by case_decide].
  case_decide; by case_guard.
Qed.

(** X11: when the filter chain returns the merged deprecation unchanged,
    the entry of a deprecation is the deprecation restricted to
    [DEPRECATED_ENTRY_KEYS]: nothing of the block type is inherited. *)
Theorem deprecation_entry_unfiltered blockType deprecation :
  applyFilters HOOK (mergeDeprecation blockType deprecation)
    (prop blockType "name") deprecation
  = mergeDeprecation blockType deprecation →
  outcome (filterDeprecation blockType (prop blockType "name") deprecation)
  = Normal (VObject Plain
              (filter (λ kv, kv.1 ∈ DEPRECATED_ENTRY_KEYS)
                 (ownProperties deprecation))).
Proof.
  intros Hid. rewrite filterDeprecation_run by by rewrite Hid.
  cbn [outcome]. unfold filteredDeprecation. rewrite Hid. do 2 f_equal.
  apply map_eq. intros k.
  rewrite !map_lookup_filter, ownProperties_mergeDeprecation.
  destruct (ownProperties deprecation !! k) as [v|]; [done|].
  case_decide; [done|].
  destruct (ownProperties blockType !! k); cbn; [|done]. by case_guard.
Qed.

(** X12: the warning quotes the category after the legacy mapping: for
    settings that pass the plain-object, [save] and [edit] checks and
    whose category is a legacy slug mapped to a slug that is not
    registered, the one warning names the mapped slug, not the one the
    settings had. *)
Theorem legacy_warning_names_latest blockType select legacy latest :
  reachesValidation blockType = true →
  (∀ r, Spec.validate isValidIcon normalizeIconObject (liveSettings blockType)
        = Some r → beforeCategory r = false) →
  (legacy, latest) ∈ [("common", "text"); ("formatting", "text");
                      ("layout", "design")] →
  toPropertyKey (prop (liveSettings blockType) "category") = legacy →
  knownCategory select (VString latest) = false →
  warnings (trace (processBlockType blockType select))
  = [MSG_CATEGORY (prop blockType "name") (VString latest)].
Proof.
  intros Hr Hpass Hin Hkey Hknown.
  pose proof (LEGACY_CATEGORY_MAPPING_Some _ _ Hin) as Hm.
  assert (Hp : isPlainObject (liveSettings blockType) = true).
  { destruct (Spec.validate isValidIcon normalizeIconObject
                (liveSettings blockType)) as [r|] eqn:Hv.
    - specialize (Hpass r eq_refl). unfold Spec.validate in Hv.
      destruct (isPlainObject (liveSettings blockType)); [done|].
      by injection Hv as <-.
    - by apply validate_None_plain. }
  assert (Hc : canonicalCategory (liveSettings blockType)
               = assign (liveSettings blockType) "category" (VString latest))
    by (unfold canonicalCategory; by rewrite Hkey, Hm).
  assert (Hcat : prop (canonicalCategory (liveSettings blockType)) "category"
                 = VString latest).
  { rewrite Hc, prop_assign_eq
      by (by apply plain_isObjectType || by apply plain_defined).
    by destruct (liveSettings blockType) as [| | | | | | |[]]. }
  assert (Hinv : invalidCategory select (liveSettings blockType) = true).
  { unfold invalidCategory. rewrite Hcat, Hknown, Hc.
    destruct (liveSettings blockType) as [| | | | | | |[] p]; try done.
    unfold hasProp, assign. rewrite lookup_insert_eq.
    cbn [negb andb]. rewrite andb_true_r. by apply bool_decide_eq_true. }
  rewrite processBlockType_run by done.
  destruct (Spec.validate _ _ _) as [r|] eqn:Hv; cbn [trace].
  - rewrite (Hpass r eq_refl).
    by rewrite !warnings_app, warnings_filterTrace, warnings_categoryWarning,
      Hinv, Hcat.
  - by rewrite warnings_app, warnings_filterTrace, warnings_categoryWarning,
      Hinv, Hcat.
Qed.

(** X13: a [deprecated] that is missing or falsy is left alone: returned
    settings have it exactly as the filtered settings had it. *)
Theorem falsy_deprecated_kept blockType select result :
  outcome (processBlockType blockType select) = Normal result →
  toBoolean result = true →
  toBoolean (prop (liveSettings blockType) "deprecated") = false →
  hasProp result "deprecated" = hasProp (liveSettings blockType) "deprecated"
  ∧ prop result "deprecated" = prop (liveSettings blockType) "deprecated".
Proof.
  intros Ho Ht Hd.
  destruct (processBlockType_accepted _ _ _ Ho Ht) as (_ & _ & ->).
  assert (Hfs : filteredSettings blockType = liveSettings blockType).
  { unfold filteredSettings.
    by destruct (prop (liveSettings blockType) "deprecated"). }
  unfold accepted. rewrite Hfs.
  rewrite hasProp_assign_ne, prop_assign_ne by done.
  by rewrite hasProp_normalizedCategory_ne, prop_normalizedCategory_ne.
Qed.

(** X14: whatever the block type, the filters and the store, one run
    calls [error] at most once and [warn] at most once (the notice of
    [deprecated] apart), and it calls [error] exactly when it returns
    [undefined]. *)
Theorem at_most_one_diagnostic blockType select :
  length (errors (trace (processBlockType blockType select))) ≤ 1
  ∧ length (warnings (trace (processBlockType blockType select))) ≤ 1
  ∧ (errors (trace (processBlockType blockType select)) ≠ []
     ↔ outcome (processBlockType blockType select) = Normal VUndefined).
Proof.
  destruct (reachesValidation blockType) eqn:Hr.
  - rewrite processBlockType_run by done.
    assert (Hw : length (warnings (categoryWarning (prop blockType "name")
                           select (liveSettings blockType))) ≤ 1)
      by (rewrite warnings_categoryWarning;
          destruct (invalidCategory _ _); cbn; lia).
    destruct (Spec.validate _ _ _) as [r|] eqn:Hv; cbn [trace outcome].
    + rewrite !errors_app, !warnings_app, errors_filterTrace,
        warnings_filterTrace.
      destruct (beforeCategory r); rewrite ?errors_categoryWarning;
        cbn [app errors warnings omap list_omap length];
        rewrite ?app_nil_r, ?length_nil; (split; [lia|]);
        (split; [done || lia|]); by split.
    + rewrite errors_app, warnings_app, errors_filterTrace,
        warnings_filterTrace, errors_categoryWarning.
      cbn [app length]. split; [lia|]. split; [done|].
      pose proof (validate_None_plain _ Hv) as Hp.
      rewrite <- isPlainObject_filteredSettings,
        <- (isPlainObject_accepted select) in Hp.
      split; [done|]. intros [= Heq]. by rewrite Heq in Hp.
  - destruct (processBlockType_throws_mute blockType select Hr) as [-> ->].
    destruct (processBlockType_throws blockType select Hr) as [e ->].
    cbn [length]. split; [lia|]. split; [lia|]. by split.
Qed.

End Registration.

(** ** The claims on the examples *)

Lemma validation_order_witness :
  reachesValidation noFilters entryKeys uneditable = true
  ∧ outcome (processBlockType noFilters validIcon normalizedIcon entryKeys
               uneditable store) = Normal VUndefined
  ∧ errors (trace (processBlockType noFilters validIcon normalizedIcon
                     entryKeys uneditable store)) = [MSG_EDIT].
Proof.
  split; [reflexivity|].
  exact (proj2 (validation_order noFilters validIcon normalizedIcon entryKeys
                  uneditable store eq_refl)).
Defined.

Lemma plain_object_check_unreached_witness :
  isNullish gadget = false
  ∧ isNullish (liveSettings lapsingFilter gadget) = true
  ∧ Spec.validate validIcon normalizedIcon (liveSettings lapsingFilter gadget)
    = Some Spec.MalformedDefinition
  ∧ (∃ e, outcome (processBlockType lapsingFilter validIcon normalizedIcon
                     entryKeys gadget store) = Throw e)
  ∧ errors (trace (processBlockType lapsingFilter validIcon normalizedIcon
                     entryKeys gadget store)) = [].
Proof.
  split; [reflexivity|]. split; [reflexivity|].
  exact (plain_object_check_unreached lapsingFilter validIcon normalizedIcon
           entryKeys gadget store eq_refl eq_refl).
Defined.

Lemma registration_without_save_witness :
  isFunction (prop (liveSettings noFilters unsaved) "save") = false
  ∧ reachesValidation noFilters entryKeys unsaved = true
  ∧ dispatched (trace (__experimentalRegisterBlockType noFilters validIcon
                         normalizedIcon entryKeys unsaved store))
    = [ADD_UNPROCESSED_BLOCK_TYPE unsaved]
  ∧ outcome (processBlockType noFilters validIcon normalizedIcon entryKeys
               unsaved store) = Normal VUndefined
  ∧ errors (trace (processBlockType noFilters validIcon normalizedIcon
                     entryKeys unsaved store)) = [MSG_SAVE].
Proof.
  split; [reflexivity|]. split; [reflexivity|].
  destruct (registration_without_save noFilters validIcon normalizedIcon
              entryKeys unsaved store eq_refl) as [Hd Hp].
  split; [exact Hd|]. exact (Hp eq_refl).
Defined.

(** Counterexample to C2 as stated, a filter that wraps the settings in an
    array:
    the wrapped settings have no callable [save], and the diagnostic is the
    one of the plain-object check. *)
Lemma save_missing_reported_as_settings :
  isFunction (prop (liveSettings wrappingFilter paragraph) "save") = false
  ∧ outcome (processBlockType wrappingFilter validIcon normalizedIcon
               entryKeys paragraph store) = Normal VUndefined
  ∧ errors (trace (processBlockType wrappingFilter validIcon normalizedIcon
                     entryKeys paragraph store)) = [MSG_SETTINGS]
  ∧ MSG_SAVE ∉ errors (trace (processBlockType wrappingFilter validIcon
                                normalizedIcon entryKeys paragraph store)).
Proof.
  split; [reflexivity|]. split; [reflexivity|].
  assert (Herr : errors (trace (processBlockType wrappingFilter validIcon
                   normalizedIcon entryKeys paragraph store)) = [MSG_SETTINGS])
    by reflexivity.
  split; [exact Herr|]. rewrite Herr, list_elem_of_singleton.
  intros Heq. vm_compute in Heq. discriminate Heq.
Qed.

Lemma nullish_settings_throw_witness :
  isNullish paragraph = false
  ∧ isNullish (liveSettings forgetfulFilter paragraph) = true
  ∧ (∃ e, outcome (processBlockType forgetfulFilter validIcon normalizedIcon
                     entryKeys paragraph store) = Throw e)
  ∧ errors (trace (processBlockType forgetfulFilter validIcon normalizedIcon
                     entryKeys paragraph store)) = []
  ∧ warnings (trace (processBlockType forgetfulFilter validIcon normalizedIcon
                       entryKeys paragraph store)) = [].
Proof.
  split; [reflexivity|]. split; [reflexivity|].
  exact (nullish_settings_throw forgetfulFilter validIcon normalizedIcon
           entryKeys paragraph store eq_refl eq_refl).
Defined.

(** Counterexample to C4 as stated, a block type without [save]: its
    category is not registered, and the run is rejected with no warning. *)
Lemma unknown_category_unreported :
  invalidCategory store (liveSettings noFilters unsaved) = true
  ∧ outcome (processBlockType noFilters validIcon normalizedIcon entryKeys
               unsaved store) = Normal VUndefined
  ∧ warnings (trace (processBlockType noFilters validIcon normalizedIcon
                       entryKeys unsaved store)) = [].
Proof. by vm_compute. Qed.

Lemma unknown_category_dropped_witness :
  reachesValidation noFilters entryKeys gadget = true
  ∧ Spec.validate validIcon normalizedIcon (liveSettings noFilters gadget)
    = None
  ∧ invalidCategory store (liveSettings noFilters gadget) = true
  ∧ warnings (trace (processBlockType noFilters validIcon normalizedIcon
                       entryKeys gadget store))
    = [MSG_CATEGORY (VString "my/gadget") (VString "widgets-old")]
  ∧ outcome (processBlockType noFilters validIcon normalizedIcon entryKeys
               gadget store)
    = Normal (VObject Plain
                {[ "name" := VString "my/gadget";
                   "title" := VString "Gadget";
                   "save" := VFunction 0;
                   "icon" := VObject Plain
                               {[ "src" := VString "block-default" ]} ]}).
Proof.
  split; [reflexivity|]. split; [reflexivity|]. split; [reflexivity|].
  assert (Hpass : ∀ r,
            Spec.validate validIcon normalizedIcon
              (liveSettings noFilters gadget) = Some r →
            beforeCategory r = false)
    by (intros r Hr; vm_compute in Hr; discriminate Hr).
  destruct (unknown_category_dropped noFilters validIcon normalizedIcon
              entryKeys gadget store eq_refl Hpass eq_refl) as [Hw Hm].
  split; [exact Hw|]. exact (proj1 Hm).
Defined.

(** Counterexample to C5 as stated: with [text] not registered, an
    accepted block type of category [common] is returned without a
    category; and the category [['common']], which is none of the three
    slugs, is rewritten to [text]. *)
Lemma legacy_category_not_kept :
  (prop (liveSettings noFilters paragraph) "category" = VString "common"
   ∧ ∃ r, outcome (processBlockType noFilters validIcon normalizedIcon
                     entryKeys paragraph customStore) = Normal r
          ∧ isPlainObject r = true
          ∧ hasProp r "category" = false)
  ∧ (prop (liveSettings noFilters listed) "category"
     = VArray [VString "common"]
     ∧ ∃ r, outcome (processBlockType noFilters validIcon normalizedIcon
                       entryKeys listed store) = Normal r
            ∧ prop r "category" = VString "text").
Proof.
  split; (split; [reflexivity|]); eexists; (split; [reflexivity|]);
    by vm_compute.
Qed.

Lemma legacy_category_mapping_witness :
  reachesValidation noFilters entryKeys paragraph = true
  ∧ Spec.validate validIcon normalizedIcon (liveSettings noFilters paragraph)
    = None
  ∧ ∃ r, outcome (processBlockType noFilters validIcon normalizedIcon
                    entryKeys paragraph store) = Normal r
         ∧ prop r "category" = VString "text".
Proof.
  split; [reflexivity|]. split; [reflexivity|].
  destruct (legacy_category_mapping noFilters validIcon normalizedIcon
              entryKeys paragraph store eq_refl eq_refl) as (Ho & Hl & _).
  eexists. split; [exact Ho|].
  exact (Hl "common" "text" (list_elem_of_here _ _) eq_refl).
Defined.

(** Counterexample to C6 as stated, a block type whose [edit] is not a
    function: its category is not registered, and the rejection is decided
    with no warning, the category step not having run. *)
Lemma rejected_before_category_step :
  invalidCategory store (liveSettings noFilters uneditable) = true
  ∧ outcome (processBlockType noFilters validIcon normalizedIcon entryKeys
               uneditable store) = Normal VUndefined
  ∧ errors (trace (processBlockType noFilters validIcon normalizedIcon
                     entryKeys uneditable store)) = [MSG_EDIT]
  ∧ warnings (trace (processBlockType noFilters validIcon normalizedIcon
                       entryKeys uneditable store)) = [].
Proof. by vm_compute. Qed.

Lemma category_step_position_witness :
  reachesValidation noFilters entryKeys untitled = true
  ∧ trace (processBlockType noFilters validIcon normalizedIcon entryKeys
             untitled store)
    = [ FilterCall HOOK untitled (VString "my/untitled") VNull;
        ConsoleWarn (MSG_CATEGORY (VString "my/untitled")
                       (VString "widgets-old"));
        ConsoleError (MSG_TITLE (VString "my/untitled")) ].
Proof.
  split; [reflexivity|].
  exact (proj1 (category_step_position noFilters validIcon normalizedIcon
                  entryKeys untitled store eq_refl)).
Defined.

Lemma deprecated_entries_filtered_witness :
  reachesValidation noFilters entryKeys paragraph = true
  ∧ Spec.validate validIcon normalizedIcon (liveSettings noFilters paragraph)
    = None
  ∧ prop (liveSettings noFilters paragraph) "deprecated"
    = VArray [legacyAttributes; legacySave]
  ∧ (∃ r, outcome (processBlockType noFilters validIcon normalizedIcon
                     entryKeys paragraph store) = Normal r
          ∧ prop r "deprecated"
            = VArray [ VObject Plain {[ "attributes" := VObject Plain ∅ ]};
                       VObject Plain {[ "save" := VFunction 2 ]} ])
  ∧ hasProp (mergeDeprecation entryKeys paragraph legacyAttributes) "supports"
    = false
  ∧ hasProp (filteredDeprecation noFilters entryKeys paragraph legacyAttributes)
      "supports" = false.
Proof.
  split; [reflexivity|]. split; [reflexivity|]. split; [reflexivity|].
  destruct (deprecated_entries_filtered noFilters validIcon normalizedIcon
              entryKeys paragraph store [legacyAttributes; legacySave]
              eq_refl eq_refl eq_refl)
    as (Ho & Hd & _ & _ & _ & Hmerge & Hentry).
  split; [eexists; split; [exact Ho|exact Hd]|].
  split.
  - apply Hmerge; [|reflexivity].
    apply (bool_decide_unpack _). vm_compute. exact I.
  - apply Hentry; [reflexivity|]. intros _. reflexivity.
Defined.

Lemma deprecation_merge_base_witness :
  reachesValidation brandingFilter entryKeys paragraph = true
  ∧ prop (liveSettings brandingFilter paragraph) "deprecated"
    = VArray [legacyAttributes; legacySave]
  ∧ filterCalls (trace (processBlockType brandingFilter validIcon
                          normalizedIcon entryKeys paragraph store))
    = [ (HOOK, paragraph, VString "my/paragraph", VNull);
        (HOOK, mergeDeprecation entryKeys paragraph legacyAttributes,
         VString "my/paragraph", legacyAttributes);
        (HOOK, mergeDeprecation entryKeys paragraph legacySave,
         VString "my/paragraph", legacySave) ]
  ∧ prop (liveSettings brandingFilter paragraph) "title" = VString "Branded"
  ∧ ownProperties (mergeDeprecation entryKeys paragraph legacyAttributes)
      !! "title" = Some (VString "Paragraph")
  ∧ hasProp (liveSettings brandingFilter paragraph) "className" = true
  ∧ ownProperties (mergeDeprecation entryKeys paragraph legacyAttributes)
      !! "className" = None.
Proof.
  split; [reflexivity|]. split; [reflexivity|].
  destruct (deprecation_merge_base brandingFilter validIcon normalizedIcon
              entryKeys paragraph store [legacyAttributes; legacySave]
              eq_refl eq_refl) as [Hcalls Hbase].
  split; [exact Hcalls|]. split; [reflexivity|].
  split; [exact (Hbase legacyAttributes "title")|].
  split; [reflexivity|]. exact (Hbase legacyAttributes "className").
Defined.

Lemma reapply_batches_accepted_witness :
  NoDup (__experimentalGetUnprocessedBlockTypes store).*1
  ∧ Forall (λ kv, ∃ r, outcome (processBlockType noFilters validIcon
                                  normalizedIcon entryKeys kv.2 store)
                       = Normal r)
      (__experimentalGetUnprocessedBlockTypes store)
  ∧ outcome (processBlockType noFilters validIcon normalizedIcon entryKeys
               unsaved store) = Normal VUndefined
  ∧ ∃ p g,
      outcome (processBlockType noFilters validIcon normalizedIcon entryKeys
                 paragraph store) = Normal p
      ∧ outcome (processBlockType noFilters validIcon normalizedIcon entryKeys
                   gadget store) = Normal g
      ∧ dispatched (trace (__experimentalReapplyBlockTypeFilters noFilters
                             validIcon normalizedIcon entryKeys store))
        = [ADD_BLOCK_TYPES [p; g]].
Proof.
  assert (Hnd : NoDup (__experimentalGetUnprocessedBlockTypes store).*1)
    by (apply (bool_decide_unpack _); vm_compute; exact I).
  assert (Hn : Forall (λ kv, ∃ r, outcome (processBlockType noFilters validIcon
                                   normalizedIcon entryKeys kv.2 store)
                        = Normal r)
                 (__experimentalGetUnprocessedBlockTypes store))
    by (repeat constructor; eexists; reflexivity).
  split; [exact Hnd|]. split; [exact Hn|]. split; [reflexivity|].
  destruct (reapply_batches_accepted noFilters validIcon normalizedIcon
              entryKeys store Hnd Hn) as (_ & _ & Hd).
  do 2 eexists. split; [reflexivity|]. split; [reflexivity|]. exact Hd.
Defined.

(** When every unprocessed block type is rejected, reapplying the filters
    dispatches nothing. *)
(** Counterexample to C9 as stated: a pass that throws ends the operation.
    With a filter that returns nothing for [my/gadget], the pass over
    [my/paragraph] is accepted and the pass over [my/gadget] throws: the
    operation throws and dispatches nothing, so the accepted result is
    not batched.  The same happens without filters when a later entry
    has a [deprecated] that is not an array. *)
Lemma reapply_loses_accepted_results :
  ((∃ r, outcome (processBlockType lapsingFilter validIcon normalizedIcon
                    entryKeys paragraph store) = Normal r
         ∧ toBoolean r = true)
   ∧ (∃ e, outcome (__experimentalReapplyBlockTypeFilters lapsingFilter
                      validIcon normalizedIcon entryKeys store) = Throw e)
   ∧ dispatched (trace (__experimentalReapplyBlockTypeFilters lapsingFilter
                          validIcon normalizedIcon entryKeys store)) = [])
  ∧ ((∃ r, outcome (processBlockType noFilters validIcon normalizedIcon
                      entryKeys paragraph brokenStore) = Normal r
           ∧ toBoolean r = true)
     ∧ (∃ e, outcome (__experimentalReapplyBlockTypeFilters noFilters
                        validIcon normalizedIcon entryKeys brokenStore)
             = Throw e)
     ∧ dispatched (trace (__experimentalReapplyBlockTypeFilters noFilters
                            validIcon normalizedIcon entryKeys brokenStore))
       = []).
Proof.
  split; (split; [eexists; split; reflexivity|]);
    (split; [eexists; reflexivity|reflexivity]).
Qed.

Example reapply_all_rejected :
  dispatched (trace (__experimentalReapplyBlockTypeFilters noFilters validIcon
                       normalizedIcon entryKeys customStore)) = [].
Proof. reflexivity. Qed.

(** ** The further properties on the examples *)

Lemma description_notice_witness :
  reachesValidation noFilters entryKeys described = true
  ∧ notices (trace (processBlockType noFilters validIcon normalizedIcon
                      entryKeys described store))
    = [("Declaring non-string block descriptions", "6.2")]
  ∧ notices (trace (processBlockType noFilters validIcon normalizedIcon
                      entryKeys paragraph store)) = [].
Proof.
  split; [reflexivity|]. split.
  - exact (proj1 (description_notice noFilters validIcon normalizedIcon
                    entryKeys described store eq_refl)).
  - exact (proj1 (description_notice noFilters validIcon normalizedIcon
                    entryKeys paragraph store eq_refl)).
Defined.

Lemma other_fields_kept_witness :
  ("className" ∉ ["deprecated"; "category"; "icon"])
  ∧ ∃ result,
      outcome (processBlockType brandingFilter validIcon normalizedIcon
                 entryKeys paragraph store) = Normal result
      ∧ toBoolean result = true
      ∧ prop result "className" = VString "branded".
Proof.
  assert (Hk : "className" ∉ ["deprecated"; "category"; "icon"])
    by (apply (bool_decide_unpack _); vm_compute; exact I).
  split; [exact Hk|].
  exists (accepted normalizedIcon store
            (filteredSettings brandingFilter entryKeys paragraph)).
  split; [reflexivity|]. split; [reflexivity|].
  exact (proj2 (other_fields_kept brandingFilter validIcon normalizedIcon
                  entryKeys paragraph store _ "className" eq_refl eq_refl Hk)).
Defined.

Lemma returned_category_registered_witness :
  ∃ result,
    outcome (processBlockType noFilters validIcon normalizedIcon entryKeys
               paragraph store) = Normal result
    ∧ toBoolean result = true
    ∧ (hasProp result "category" = false
       ∨ (∃ s, prop result "category" = VString s
               ∧ s ∈ slug <$> getCategories store)
         ∧ LEGACY_CATEGORY_MAPPING !! toPropertyKey (prop result "category")
           = None).
Proof.
  exists (accepted normalizedIcon store
            (filteredSettings noFilters entryKeys paragraph)).
  split; [reflexivity|]. split; [reflexivity|].
  exact (returned_category_registered noFilters validIcon normalizedIcon
           entryKeys paragraph store _ eq_refl eq_refl).
Defined.

Lemma returned_settings_well_formed_witness :
  ∃ result,
    outcome (processBlockType brandingFilter validIcon normalizedIcon
               entryKeys paragraph store) = Normal result
    ∧ toBoolean result = true
    ∧ isFunction (prop result "save") = true
    ∧ prop result "title" = VString "Branded"
    ∧ prop result "icon" = VObject Plain {[ "src" := VString "block-default" ]}.
Proof.
  exists (accepted normalizedIcon store
            (filteredSettings brandingFilter entryKeys paragraph)).
  split; [reflexivity|]. split; [reflexivity|].
  destruct (returned_settings_well_formed brandingFilter validIcon
              normalizedIcon entryKeys paragraph store _ eq_refl eq_refl)
    as (_ & Hsave & _ & _ & Hicon & _).
  split; [exact Hsave|]. split; [reflexivity|]. exact Hicon.
Defined.

Lemma normalizeCategory_idempotent_witness :
  isPlainObject gadget = true
  ∧ ∃ settings',
      outcome (normalizeCategory (VString "my/gadget") gadget store)
      = Normal settings'
      ∧ normalizeCategory (VString "my/gadget") settings' store
        = Run [] (Normal settings').
Proof.
  split; [reflexivity|].
  exact (normalizeCategory_idempotent (VString "my/gadget") gadget store
           eq_refl).
Defined.

Lemma reapply_throws_without_dispatch_witness :
  NoDup (__experimentalGetUnprocessedBlockTypes brokenStore).*1
  ∧ (∃ r, outcome (processBlockType noFilters validIcon normalizedIcon
                     entryKeys paragraph brokenStore) = Normal r
          ∧ toBoolean r = true)
  ∧ (∃ e, outcome (processBlockType noFilters validIcon normalizedIcon
                     entryKeys malformed brokenStore) = Throw e)
  ∧ (∃ e, outcome (__experimentalReapplyBlockTypeFilters noFilters validIcon
                     normalizedIcon entryKeys brokenStore) = Throw e)
  ∧ dispatched (trace (__experimentalReapplyBlockTypeFilters noFilters
                         validIcon normalizedIcon entryKeys brokenStore))
    = [].
Proof.
  assert (Hnd : NoDup (__experimentalGetUnprocessedBlockTypes brokenStore).*1)
    by (apply (bool_decide_unpack _); vm_compute; exact I).
  assert (Hthrows : ∃ e, outcome (processBlockType noFilters validIcon
                             normalizedIcon entryKeys malformed brokenStore)
                         = Throw e)
    by (eexists; reflexivity).
  split; [exact Hnd|].
  split; [eexists; split; reflexivity|].
  split; [exact Hthrows|].
  apply (reapply_throws_without_dispatch noFilters validIcon normalizedIcon
           entryKeys brokenStore Hnd).
  right. left. exact Hthrows.
Defined.

Lemma reapply_adds_what_registering_adds_witness :
  NoDup (__experimentalGetUnprocessedBlockTypes store).*1
  ∧ Forall (λ kv, ∃ r, outcome (processBlockType noFilters validIcon
                                  normalizedIcon entryKeys kv.2 store)
                       = Normal r)
      (__experimentalGetUnprocessedBlockTypes store)
  ∧ addedBlockTypes
      (dispatched (trace (__experimentalReapplyBlockTypeFilters noFilters
                            validIcon normalizedIcon entryKeys store)))
    = addedBlockTypes
        (dispatched (trace (__experimentalRegisterBlockType noFilters
                              validIcon normalizedIcon entryKeys unsaved
                              store)))
      ++ addedBlockTypes
           (dispatched (trace (__experimentalRegisterBlockType noFilters
                                 validIcon normalizedIcon entryKeys paragraph
                                 store)))
      ++ addedBlockTypes
           (dispatched (trace (__experimentalRegisterBlockType noFilters
                                 validIcon normalizedIcon entryKeys gadget
                                 store))).
Proof.
  assert (Hnd : NoDup (__experimentalGetUnprocessedBlockTypes store).*1)
    by (apply (bool_decide_unpack _); vm_compute; exact I).
  assert (Hn : Forall (λ kv, ∃ r, outcome (processBlockType noFilters validIcon
                                   normalizedIcon entryKeys kv.2 store)
                        = Normal r)
                 (__experimentalGetUnprocessedBlockTypes store))
    by (repeat constructor; eexists; reflexivity).
  split; [exact Hnd|]. split; [exact Hn|].
  rewrite (reapply_adds_what_registering_adds noFilters validIcon
             normalizedIcon entryKeys store Hnd Hn).
  cbn [__experimentalGetUnprocessedBlockTypes store fmap list_fmap concat snd].
  by rewrite app_nil_r.
Defined.

Lemma category_never_decides_witness :
  errors (trace (validateSettings validIcon normalizedIcon
                   (VString "my/untitled")
                   (assign untitled "category" (VString "text")) customStore))
  = errors (trace (validateSettings validIcon normalizedIcon
                     (VString "my/untitled") untitled store))
  ∧ errors (trace (validateSettings validIcon normalizedIcon
                     (VString "my/untitled") untitled store))
    = [MSG_TITLE (VString "my/untitled")].
Proof.
  split; [|reflexivity].
  exact (proj1 (category_never_decides validIcon normalizedIcon
                  (VString "my/untitled") untitled
                  (assign untitled "category" (VString "text"))
                  store customStore (VString "text") (or_introl eq_refl))).
Defined.

Lemma deprecation_entry_allowlisted_witness :
  isNullish (brandingFilter HOOK
               (mergeDeprecation entryKeys paragraph legacyAttributes)
               (prop paragraph "name") legacyAttributes) = false
  ∧ ∃ entry,
      outcome (filterDeprecation brandingFilter entryKeys paragraph
                 (prop paragraph "name") legacyAttributes) = Normal entry
      ∧ ownProperties entry !! "attributes" = Some (VObject Plain ∅)
      ∧ ownProperties entry !! "className" = None.
Proof.
  split; [reflexivity|].
  destruct (deprecation_entry_allowlisted brandingFilter entryKeys paragraph
              legacyAttributes eq_refl) as (entry & Ho & _ & Hk).
  exists entry. split; [exact Ho|]. split.
  - exact (Hk "attributes").
  - exact (Hk "className").
Defined.

Lemma deprecation_entry_unfiltered_witness :
  noFilters HOOK (mergeDeprecation entryKeys paragraph legacyAttributes)
    (prop paragraph "name") legacyAttributes
  = mergeDeprecation entryKeys paragraph legacyAttributes
  ∧ outcome (filterDeprecation noFilters entryKeys paragraph
               (prop paragraph "name") legacyAttributes)
    = Normal (VObject Plain {[ "attributes" := VObject Plain ∅ ]}).
Proof.
  split; [reflexivity|].
  exact (deprecation_entry_unfiltered noFilters entryKeys paragraph
           legacyAttributes eq_refl).
Defined.

Lemma legacy_warning_names_latest_witness :
  reachesValidation noFilters entryKeys paragraph = true
  ∧ Spec.validate validIcon normalizedIcon (liveSettings noFilters paragraph)
    = None
  ∧ prop (liveSettings noFilters paragraph) "category" = VString "common"
  ∧ knownCategory customStore (VString "text") = false
  ∧ warnings (trace (processBlockType noFilters validIcon normalizedIcon
                       entryKeys paragraph customStore))
    = [MSG_CATEGORY (VString "my/paragraph") (VString "text")].
Proof.
  split; [reflexivity|]. split; [reflexivity|]. split; [reflexivity|].
  split; [reflexivity|].
  assert (Hpass : ∀ r,
            Spec.validate validIcon normalizedIcon
              (liveSettings noFilters paragraph) = Some r →
            beforeCategory r = false)
    by (intros r Hr; vm_compute in Hr; discriminate Hr).
  exact (legacy_warning_names_latest noFilters validIcon normalizedIcon
           entryKeys paragraph customStore "common" "text" eq_refl Hpass
           (list_elem_of_here _ _) eq_refl eq_refl).
Defined.

Lemma falsy_deprecated_kept_witness :
  toBoolean (prop (liveSettings noFilters gadget) "deprecated") = false
  ∧ ∃ result,
      outcome (processBlockType noFilters validIcon normalizedIcon entryKeys
                 gadget store) = Normal result
      ∧ toBoolean result = true
      ∧ hasProp result "deprecated" = false.
Proof.
  split; [reflexivity|].
  exists (accepted normalizedIcon store
            (filteredSettings noFilters entryKeys gadget)).
  split; [reflexivity|]. split; [reflexivity|].
  exact (proj1 (falsy_deprecated_kept noFilters validIcon normalizedIcon
                  entryKeys gadget store _ eq_refl eq_refl eq_refl)).
Defined.

